(** * wbclean: World Bank download-and-reshape pipeline

    A shallow embedding of [wbclean.py].  The module is a set of sequential
    pipelines: call the remote indicator source, reshape the returned frame
    with pandas operations, optionally write a csv file or draw a chart.

    - A pandas frame is a list of rows (order and duplicates matter); the
      index levels and the columns of each frame are the fields of a record.
    - A cell of a float column is [option Q]: [None] is NaN (a missing
      value) and [Some q] a finite reading.  Every finite double is a
      rational and the pipelines only test readings for NaN, compare them
      and copy them, so the rational order stands for the float order.
    - Labels (country names, year labels, column names) are strings; pandas
      orders them as Python does, by code point, which on UTF-8 bytes is the
      lexicographic byte order [String.le].
    - The remote source, the clock and the file system are the environment
      of a run; calls thread a [World] that logs what was requested, printed,
      written and drawn. *)

From Stdlib Require Import QArith.
From stdpp Require Import base list strings sorting pretty.

(** ** Python values that the code moves around *)

(** A float cell: [None] is NaN. *)
Definition cell : Type := option Q.

(** The [country] argument: one ISO3 code (or the word all), or a list of
    codes. *)
Inductive selector :=
  | Code (c : string)
  | Codes (cs : list string).

(** The values the variable [year] of [plot_bar_chart] takes: an int or
    [None] from the caller, a label or NaN after [df.index.max()]. *)
Inductive pyval :=
  | PInt (z : Z)
  | PStr (s : string)
  | PNone
  | PNan.

(** Python's [str]. *)
Definition py_str (v : pyval) : string :=
  match v with
  | PInt z => pretty z
  | PStr s => s
  | PNone => "None"
  | PNan => "nan"
  end.

(** ** Frames *)

(** A row of the frame [wb.download] returns: index levels [country] and
    [year], one float column named after the indicator. *)
Record Obs := mkObs {
  country : string;
  year : string;
  value : cell
}.

(** A row of the frame [get_wb_data] returns: index [Year], columns
    [Region] and the indicator. *)
Record YRow := mkYRow {
  Year : string;
  Region : string;
  Value : cell
}.

(** A row of [wb.get_countries()] restricted to the columns the code
    selects. *)
Record CountryInfo := mkCountryInfo {
  iso2c : string;
  name : string;
  region : string
}.

(** The pivoted frame after [reset_index]: a [country] column and one
    column per year label. *)
Record PivotFrame := mkPivotFrame {
  p_years : list string;
  p_rows : list (string * list cell)
}.

(** A row of the frame [to_flourish] returns. *)
Record WideRow := mkWideRow {
  w_name : string;
  w_region : string;
  w_image_url : string;
  w_cells : list cell
}.

(** The frame [to_flourish] returns: columns [name], [region],
    [Image URL] and the year columns. *)
Record WideFrame := mkWideFrame {
  w_years : list string;
  w_rows : list WideRow
}.

(** ** Files and figures *)

Inductive field :=
  | FStr (s : string)
  | FNum (c : cell).

(** A delimited text file: its header line and its records, field by
    field. *)
Record Csv := mkCsv {
  header : list string;
  records : list (list field)
}.

(** What reaches the plotting surface. *)
Inductive draw :=
  | Barplot (x y : string) (data : list YRow) (color : string)
  | Title (s : string)
  | Savefig (path : string)
  | PltShow.

(** ** Effects *)

Inductive error :=
  | DataUnavailable (msg : string)
  | IOFailure (path : string).

Inductive Outcome (A : Type) :=
  | Ok (a : A)
  | Raise (e : error).
Arguments Ok {A} a.
Arguments Raise {A} e.

(** A call to the remote source. *)
Inductive request :=
  | Download (indicator : string) (country : selector) (start_yr end_yr : option Z)
  | GetCountries.

Record World := mkWorld {
  indicator_name : option string;   (* the module global *)
  requests : list request;          (* calls to the remote source, oldest first *)
  stdout : list string;             (* lines printed *)
  files : list (string * Csv);      (* files written, oldest first *)
  figure : list draw                (* drawing calls, oldest first *)
}.

Definition M (A : Type) : Type := World → Outcome A * World.

Global Instance M_ret : MRet M := λ A a w, (Ok a, w).
Global Instance M_bind : MBind M := λ A B f m w,
  match m w with
  | (Ok a, w') => f a w'
  | (Raise e, w') => (Raise e, w')
  end.

(** [returns m w a w']: run from [w], the call [m] returns [a] and leaves
    the world [w']. *)
Definition returns {A} (m : M A) (w : World) (a : A) (w' : World) : Prop :=
  m w = (Ok a, w').

(** The environment of a run.  The remote source answers its [n]-th
    request (counting from 0 over the whole run) with [wb_download n ...]
    or [wb_get_countries n]: nothing in the code makes two answers agree.
    [now] is the clock reading formatted by [strftime('%d-%m-%Y %H-%M')],
    [writable] tells which paths the file system accepts. *)
Record Env := mkEnv {
  wb_download : nat → string → selector → option Z → option Z → Outcome (list Obs);
  wb_get_countries : nat → Outcome (list CountryInfo);
  now : string;
  writable : string → bool
}.

(** ** pandas on the long frame *)

(** [df.dropna()]: keep the rows with no NaN. *)
Definition dropna (df : list Obs) : list Obs :=
  filter (λ r, is_Some (value r)) df.

(** [df.index.names = ['Region', 'Year']] then [reset_index(level=0)]:
    the first index level becomes the column [Region], the second stays
    as the index, now called [Year]. *)
Definition reset_index_level0 (df : list Obs) : list YRow :=
  (λ r, mkYRow (year r) (country r) (value r)) <$> df.

(** Order of [sort_values(by='Region')]. *)
Definition region_le (a b : YRow) : Prop := String.le (Region a) (Region b).

Global Instance region_le_dec : RelDecision region_le :=
  λ a b, String.le_dec (Region a) (Region b).

(** [df.sort_values(by='Region')].  pandas leaves the order of rows with
    equal keys to the sorting routine; the development relies on the
    result being ordered and a rearrangement of the rows only. *)
Definition sort_values_Region (df : list YRow) : list YRow :=
  merge_sort region_le df.

Global Instance Qle_dec : RelDecision Qle := λ x y,
  match Qlt_le_dec y x with
  | left H => right (Qlt_not_le y x H)
  | right H => left H
  end.

(** Descending order of float cells, NaN last
    ([ascending=False], [na_position='last']). *)
Definition cell_ge (a b : cell) : Prop :=
  match a, b with
  | _, None => True
  | None, Some _ => False
  | Some x, Some y => (y <= x)%Q
  end.

Global Instance cell_ge_dec : RelDecision cell_ge := λ a b,
  match a, b return Decision (cell_ge a b) with
  | Some x, Some y => Qle_dec y x
  | Some _, None => left I
  | None, Some _ => right (λ H : False, H)
  | None, None => left I
  end.

Definition value_ge (a b : YRow) : Prop := cell_ge (Value a) (Value b).

Global Instance value_ge_dec : RelDecision value_ge :=
  λ a b, cell_ge_dec (Value a) (Value b).

(** [df.sort_values(by=indicator, ascending=False)]. *)
Definition sort_values_desc (df : list YRow) : list YRow :=
  merge_sort value_ge df.

(** [df.to_csv(path, index=False)] on a year-indexed frame whose value
    column is [indicator]: the index is not written. *)
Definition YRows_to_csv (indicator : string) (df : list YRow) : Csv :=
  mkCsv ["Region"; indicator]
        ((λ r, [FStr (Region r); FNum (Value r)]) <$> df).

(** [df.index.max()]: the greatest label, NaN on an empty index. *)
Definition str_max (a b : string) : string :=
  if decide (String.le a b) then b else a.

Definition index_max (df : list YRow) : pyval :=
  match Year <$> df with
  | [] => PNan
  | y :: ys => PStr (foldl str_max y ys)
  end.

(** ** pandas on the way to the wide frame *)

(** The labels of a grouping axis: each key once, in ascending order. *)
Definition sorted_labels (l : list string) : list string :=
  merge_sort String.le (remove_dups l).

(** The [mean] of a group: NaN is skipped, and the mean of nothing is NaN.
    The source answers with one reading per country and year, and the mean
    of one reading is that reading; for a group of several readings the
    rational mean stands for the rounded float mean. *)
Definition mean (g : list cell) : cell :=
  match omap id g with
  | [] => None
  | v :: vs => Some (foldr Qplus 0%Q (v :: vs) / inject_Z (Z.of_nat (length (v :: vs))))%Q
  end.

(** [pd.pivot_table(df, values=indicator, columns='year', index='country')]
    followed by [reset_index()].  The [df.reset_index()] before it turns the
    index levels into the columns [country] and [year], which a row of the
    model holds as fields already.  The frame is grouped by country and year
    and each group averaged; groups whose mean is NaN are dropped
    ([dropna=True]); the [year] level is unstacked, so that the rows are the
    countries and the columns the years that are left, both in ascending
    order; a cell with no group is NaN. *)
Definition pivot_table (df : list Obs) : PivotFrame :=
  let agged := dropna df in
  let years := sorted_labels (year <$> agged) in
  let countries := sorted_labels (country <$> agged) in
  mkPivotFrame years
    ((λ c, (c, (λ y, mean (value <$> filter (λ r, country r = c ∧ year r = y) df))
               <$> years)) <$> countries).

(** A row of [pd.merge(country_info[['iso2c','name','region']], df,
    left_on='name', right_on='country')]. *)
Record Merged := mkMerged {
  m_iso2c : string;
  m_name : string;
  m_region : string;
  m_country : string;
  m_cells : list cell
}.

(** [pd.merge] with its default [how='inner']: one row per pair of a left
    row and a right row with equal keys, in the order of the left rows. *)
Definition merge (left : list CountryInfo) (right : PivotFrame) : list Merged :=
  l ← left;
  r ← filter (λ r, r.1 = name l) (p_rows right);
  [mkMerged (iso2c l) (name l) (region l) r.1 r.2].

Definition image_url (i : string) : string :=
  "https://www.countryflags.io/" +:+ i +:+ "/flat/64.png".

(** [insert(3, 'Image URL', ...)] then [drop(columns=['iso2c','country'])]. *)
Definition insert_url_drop (df : list Merged) : list WideRow :=
  (λ r, mkWideRow (m_name r) (m_region r) (image_url (m_iso2c r)) (m_cells r)) <$> df.

(** [df.to_csv(path, index=False)] on the wide frame. *)
Definition WideFrame_to_csv (df : WideFrame) : Csv :=
  mkCsv (["name"; "region"; "Image URL"] ++ w_years df)
        ((λ r, [FStr (w_name r); FStr (w_region r); FStr (w_image_url r)]
               ++ (FNum <$> w_cells r)) <$> w_rows df).

Definition newline : string := String (Ascii.ascii_of_nat 10) "".

(** ** The functions of the module *)

Section wbclean.

Variable E : Env.

(** *** Primitive effects *)

Definition set_indicator_name (i : string) : M unit := λ w,
  (Ok (), mkWorld (Some i) (requests w) (stdout w) (files w) (figure w)).

Definition log_request (r : request) (w : World) : World :=
  mkWorld (indicator_name w) (requests w ++ [r]) (stdout w) (files w) (figure w).

(** [wb.download(indicator=, country=, start=, end=)]. *)
Definition download (indicator : string) (c : selector) (start_yr end_yr : option Z)
  : M (list Obs) := λ w,
  (wb_download E (length (requests w)) indicator c start_yr end_yr,
   log_request (Download indicator c start_yr end_yr) w).

(** [wb.get_countries()]. *)
Definition get_countries : M (list CountryInfo) := λ w,
  (wb_get_countries E (length (requests w)), log_request GetCountries w).

Definition print (s : string) : M unit := λ w,
  (Ok (), mkWorld (indicator_name w) (requests w) (stdout w ++ [s]) (files w) (figure w)).

Definition write_file (path : string) (c : Csv) : M unit := λ w,
  if writable E path
  then (Ok (), mkWorld (indicator_name w) (requests w) (stdout w)
                       (files w ++ [(path, c)]) (figure w))
  else (Raise (IOFailure path), w).

Definition plt (d : draw) : M unit := λ w,
  (Ok (), mkWorld (indicator_name w) (requests w) (stdout w) (files w) (figure w ++ [d])).

(** *** to_flourish *)

Definition to_flourish (indicator : string) (start_yr end_yr : option Z)
    (country : selector) (save_csv : bool) : M WideFrame :=
  df ← download indicator country start_yr end_yr ;
  let df := pivot_table df in
  print "Processed the Indicator Data" ;;
  country_info ← get_countries ;
  let country_info := filter (λ c, region c ≠ "Aggregates") country_info in
  let df_merged := merge country_info df in
  let df_merged := mkWideFrame (p_years df) (insert_url_drop df_merged) in
  (if save_csv
   then write_file ("flourish_data/flourish_" +:+ indicator +:+ "_" +:+ now E +:+ ".csv")
                   (WideFrame_to_csv df_merged)
   else mret ()) ;;
  mret df_merged.

(** *** get_wb_data *)

Definition get_wb_data (indicator : string) (start_yr end_yr : option Z)
    (country : selector) (save_csv : bool) : M (list YRow) :=
  set_indicator_name indicator ;;
  temp_df ← download indicator country start_yr end_yr ;
  let temp_df := dropna temp_df in
  let temp_df := sort_values_Region (reset_index_level0 temp_df) in
  (if save_csv
   then write_file (indicator +:+ "_" +:+ now E +:+ ".csv")
                   (YRows_to_csv indicator temp_df)
   else mret ()) ;;
  mret temp_df.

(** *** plot_bar_chart

    The calls that style the figure, place the value labels and set the
    axis limit take no part in choosing or ordering the rows and are left
    out; the bar plot, the title, the saved image and [show] are kept. *)

Definition plot_bar_chart (indicator : string) (year : option Z)
    (country : selector) (title barcolour : string) (save : bool) : M unit :=
  df ← get_wb_data indicator year year country false ;
  let year := match year with
              | None => index_max df
              | Some z => PInt z
              end in
  let df := sort_values_Region (filter (λ r, Year r = py_str year) df) in
  plt (Barplot indicator "Region" (sort_values_desc df) barcolour) ;;
  plt (Title (title +:+ newline +:+ "in " +:+ py_str (index_max df))) ;;
  (if save then plt (Savefig (title +:+ "_bar.png")) else mret ()) ;;
  plt PltShow.

End wbclean.

(** ** Notions used by the statements *)

(** Two worlds that differ at most in the files written. *)
Definition same_but_files (w1 w2 : World) : Prop :=
  indicator_name w1 = indicator_name w2 ∧
  requests w1 = requests w2 ∧
  stdout w1 = stdout w2 ∧
  figure w1 = figure w2.

(** The remote source answers a download query the same way whenever it
    is asked. *)
Definition deterministic_source (E : Env) : Prop :=
  ∀ n m indicator c start_yr end_yr,
    wb_download E n indicator c start_yr end_yr
    = wb_download E m indicator c start_yr end_yr.

(** The six index entries of the scenario: two countries, three years. *)
Definition usa_can_2010_2012 : list (string * string) :=
  [("United States", "2012"); ("United States", "2011"); ("United States", "2010");
   ("Canada", "2012"); ("Canada", "2011"); ("Canada", "2010")].

(** ** Sample runs *)

Module Demo.

Definition world0 : World := mkWorld None [] [] [] [].

(** Readings for two countries, a rollup and a name that the metadata
    does not know; one reading is missing. *)
Definition fetched : list Obs :=
  [mkObs "United States" "2012" (Some (3 # 1)%Q);
   mkObs "United States" "2011" None;
   mkObs "Canada" "2012" (Some (1 # 2)%Q);
   mkObs "Canada" "2010" (Some (5 # 1)%Q);
   mkObs "Atlantis" "2010" (Some (7 # 1)%Q);
   mkObs "World" "2010" (Some (9 # 1)%Q)].

Definition countries : list CountryInfo :=
  [mkCountryInfo "US" "United States" "North America";
   mkCountryInfo "CA" "Canada" "North America";
   mkCountryInfo "1W" "World" "Aggregates"].

Definition env : Env :=
  mkEnv (λ _ _ _ _ _, Ok fetched) (λ _, Ok countries)
        "01-02-2020 10-30" (λ _, true).

Definition year_run (save_csv : bool) : Outcome (list YRow) * World :=
  Eval vm_compute in
    get_wb_data env "NY.GDP.PCAP.CD" (Some 2010%Z) (Some 2012%Z) (Code "all")
                save_csv world0.

Definition year_table : list YRow :=
  Eval vm_compute in
    match year_run false with (Ok t, _) => t | _ => [] end.

(** The six readings of the scenario, as the source lists them. *)
Definition pop_fetched : list Obs :=
  [mkObs "Canada" "2012" (Some (34714222 # 1)%Q);
   mkObs "Canada" "2011" (Some (34339328 # 1)%Q);
   mkObs "Canada" "2010" (Some (34004889 # 1)%Q);
   mkObs "United States" "2012" (Some (313877662 # 1)%Q);
   mkObs "United States" "2011" (Some (311583481 # 1)%Q);
   mkObs "United States" "2010" (Some (309327143 # 1)%Q)].

Definition pop_env : Env :=
  mkEnv (λ _ _ _ _ _, Ok pop_fetched) (λ _, Ok countries)
        "01-02-2020 10-30" (λ _, true).

Definition pop_run : Outcome (list YRow) * World :=
  Eval vm_compute in
    get_wb_data pop_env "SP.POP.TOTL" (Some 2010%Z) (Some 2012%Z)
                (Codes ["USA"; "CAN"]) false world0.

Definition pop_table : list YRow :=
  Eval vm_compute in
    match pop_run with (Ok t, _) => t | _ => [] end.

Definition pivoted : PivotFrame := Eval vm_compute in pivot_table fetched.

Definition flourish_run (save_csv : bool) : Outcome WideFrame * World :=
  Eval vm_compute in
    to_flourish env "NY.GDP.PCAP.CD" (Some 2010%Z) (Some 2012%Z) (Code "all")
                save_csv world0.

Definition flourish_table : WideFrame :=
  Eval vm_compute in
    match flourish_run false with (Ok t, _) => t | _ => mkWideFrame [] [] end.

Definition bar_run : Outcome () * World :=
  Eval vm_compute in
    plot_bar_chart env "NY.GDP.PCAP.CD" None (Code "all") "GDP per head"
                   "darkslategrey" false world0.

(** Three regions in one year, with the values 5.1, 9.4 and 2.0. *)
Definition three_fetched : list Obs :=
  [mkObs "Chile" "2019" (Some (51 # 10)%Q);
   mkObs "Brazil" "2019" (Some (94 # 10)%Q);
   mkObs "Peru" "2019" (Some (2 # 1)%Q)].

Definition three_env : Env :=
  mkEnv (λ _ _ _ _ _, Ok three_fetched) (λ _, Ok countries)
        "01-02-2020 10-30" (λ _, true).

Definition three_run : Outcome () * World :=
  Eval vm_compute in
    plot_bar_chart three_env "SH.XPD.CHEX.GD.ZS" (Some 2019%Z) (Code "all")
                   "Health spending" "darkslategrey" false world0.

(** A source whose answer changes after the first request. *)
Definition fickle_env : Env :=
  mkEnv (λ n _ _ _ _,
           match n with
           | 0 => Ok [mkObs "Canada" "2010" (Some (34004889 # 1)%Q)]
           | S _ => Ok []
           end)
        (λ _, Ok countries) "01-02-2020 10-30" (λ _, true).

End Demo.

(** ** The line chart *)

(** [df.index.min()]: the least label, NaN on an empty index. *)
Definition str_min (a b : string) : string :=
  if decide (String.le a b) then a else b.

Definition index_min (df : list YRow) : pyval :=
  match Year <$> df with
  | [] => PNan
  | y :: ys => PStr (foldl str_min y ys)
  end.

(** The [ylim] argument: [None], a bottom, or a bottom and a top. *)
Definition limits : Type := option (Q * option Q).

(** What [plot_line_chart] sends to the plotting surface. *)
Inductive line_draw :=
  | Lineplot (x : list string) (y : string) (data : list YRow) (hue : string)
  | LineTitle (s : string)
  | Xlabel (s : string)
  | Ylabel (s : string)
  | Legend
  | Ylim (l : limits)
  | LineSavefig (path : string)
  | LineShow.

(** The drawing calls of the line chart are logged beside the world. *)
Record Canvas := mkCanvas {
  world : World;
  lines : list line_draw
}.

Definition MC (A : Type) : Type := Canvas → Outcome A * Canvas.

Global Instance MC_ret : MRet MC := λ A a cv, (Ok a, cv).
Global Instance MC_bind : MBind MC := λ A B f m cv,
  match m cv with
  | (Ok a, cv') => f a cv'
  | (Raise e, cv') => (Raise e, cv')
  end.

(** A call that works on the world only. *)
Definition lift {A} (m : M A) : MC A := λ cv,
  (fst (m (world cv)), mkCanvas (snd (m (world cv))) (lines cv)).

Definition plt_line (d : line_draw) : MC unit := λ cv,
  (Ok (), mkCanvas (world cv) (lines cv ++ [d])).

(** [plot_line_chart].  As for the bar chart, the calls that only style
    the figure are left out. *)
Definition plot_line_chart (E : Env) (indicator : string) (start_yr end_yr : option Z)
    (country : selector) (title : string) (ylim : limits) (save : bool) : MC unit :=
  df ← lift (get_wb_data E indicator start_yr end_yr country false) ;
  plt_line (Lineplot (Year <$> df) indicator df "Region") ;;
  plt_line (LineTitle (title +:+ newline +:+ " from " +:+ py_str (index_min df)
                       +:+ " to " +:+ py_str (index_max df))) ;;
  plt_line (Xlabel "Year") ;;
  plt_line (Ylabel title) ;;
  plt_line Legend ;;
  plt_line (Ylim ylim) ;;
  (if save then plt_line (LineSavefig (title +:+ "_line.png")) else mret ()) ;;
  plt_line LineShow.

(** ** Further notions used by the statements *)


(** Two observations, or two rows, that agree but for the year. *)
Definition same_reading (o1 o2 : Obs) : Prop :=
  country o1 = country o2 ∧ value o1 = value o2.

Definition same_row_but_year (r1 r2 : YRow) : Prop :=
  Region r1 = Region r2 ∧ Value r1 = Value r2.

(** The year that [plot_bar_chart] plots, as a label. *)
Definition plotted_year (year : option Z) (df : list YRow) : string :=
  py_str (match year with
          | None => index_max df
          | Some z => PInt z
          end).

(** ** Further sample runs *)

Module Sample.

(** A source that is down. *)
Definition down_env : Env :=
  mkEnv (λ _ _ _ _ _, Raise (DataUnavailable "No indicators returned data."))
        (λ _, Ok Demo.countries) "01-02-2020 10-30" (λ _, true).

(** A source whose metadata query fails. *)
Definition no_metadata_env : Env :=
  mkEnv (λ _ _ _ _ _, Ok Demo.fetched)
        (λ _, Raise (DataUnavailable "metadata"))
        "01-02-2020 10-30" (λ _, true).

(** A file system that accepts no file. *)
Definition readonly_env : Env :=
  mkEnv (λ _ _ _ _ _, Ok Demo.fetched) (λ _, Ok Demo.countries)
        "01-02-2020 10-30" (λ _, false).

(** The readings of [Demo.fetched] under other years. *)
Definition shifted : list Obs :=
  [mkObs "United States" "1999" (Some (3 # 1)%Q);
   mkObs "United States" "1998" None;
   mkObs "Canada" "1999" (Some (1 # 2)%Q);
   mkObs "Canada" "1997" (Some (5 # 1)%Q);
   mkObs "Atlantis" "1997" (Some (7 # 1)%Q);
   mkObs "World" "1997" (Some (9 # 1)%Q)].

Definition shifted_env : Env :=
  mkEnv (λ _ _ _ _ _, Ok shifted) (λ _, Ok Demo.countries)
        "01-02-2020 10-30" (λ _, true).

Definition shifted_run : Outcome (list YRow) * World :=
  Eval vm_compute in
    get_wb_data shifted_env "NY.GDP.PCAP.CD" (Some 1997%Z) (Some 1999%Z) (Code "all")
                true Demo.world0.

Definition shifted_table : list YRow :=
  Eval vm_compute in
    match shifted_run with (Ok t, _) => t | _ => [] end.

(** The source of [Demo.env] an hour later, with one more rollup in its
    metadata. *)
Definition later_env : Env :=
  mkEnv (λ _ _ _ _ _, Ok Demo.fetched)
        (λ _, Ok (Demo.countries ++ [mkCountryInfo "ZJ" "Latin America" "Aggregates"]))
        "01-02-2020 11-30" (λ _, true).

Definition later_flourish_run : Outcome WideFrame * World :=
  Eval vm_compute in
    to_flourish later_env "NY.GDP.PCAP.CD" (Some 2010%Z) (Some 2012%Z) (Code "all")
                true Demo.world0.

Definition later_flourish_table : WideFrame :=
  Eval vm_compute in
    match later_flourish_run with (Ok t, _) => t | _ => mkWideFrame [] [] end.

(** A source whose readings are all missing. *)
Definition blank_env : Env :=
  mkEnv (λ _ _ _ _ _, Ok [mkObs "Canada" "2030" None; mkObs "United States" "2030" None])
        (λ _, Ok Demo.countries) "01-02-2020 10-30" (λ _, true).

Definition canvas0 : Canvas := mkCanvas Demo.world0 [].

Definition line_run : Outcome () * Canvas :=
  Eval vm_compute in
    plot_line_chart Demo.env "NY.GDP.PCAP.CD" (Some 2010%Z) (Some 2012%Z) (Code "all")
                    "GDP per head" None true canvas0.

Definition bar_2010_run : Outcome () * World :=
  Eval vm_compute in
    plot_bar_chart Demo.env "NY.GDP.PCAP.CD" (Some 2010%Z) (Code "all") "GDP per head"
                   "darkslategrey" true Demo.world0.


End Sample.

(** * Properties *)

(** ** The orders used by the sorts *)

Global Instance region_le_trans : Transitive region_le.
Proof. intros a b c. unfold region_le. apply transitivity. Qed.

Global Instance region_le_total : Total region_le.
Proof. intros a b. apply (total String.le). Qed.

Global Instance cell_ge_trans : Transitive cell_ge.
Proof.
  intros [x|] [y|] [z|]; simpl; try tauto.
  intros Hyx Hzy. by apply Qle_trans with y.
Qed.

Global Instance cell_ge_total : Total cell_ge.
Proof.
  intros [x|] [y|]; simpl; try tauto.
  destruct (Qlt_le_dec x y) as [H|H]; [right; by apply Qlt_le_weak | by left].
Qed.

Global Instance value_ge_trans : Transitive value_ge.
Proof. intros a b c. unfold value_ge. apply transitivity. Qed.

Global Instance value_ge_total : Total value_ge.
Proof. intros a b. apply (total cell_ge). Qed.

Lemma sort_values_Region_perm df : sort_values_Region df ≡ₚ df.
Proof. apply merge_sort_Permutation. Qed.

Lemma sort_values_Region_sorted df : StronglySorted region_le (sort_values_Region df).
Proof. apply StronglySorted_merge_sort; apply _. Qed.

Lemma sort_values_desc_perm df : sort_values_desc df ≡ₚ df.
Proof. apply merge_sort_Permutation. Qed.

Lemma sort_values_desc_sorted df : StronglySorted value_ge (sort_values_desc df).
Proof. apply StronglySorted_merge_sort; apply _. Qed.

(** ** What a returning call has done *)

Section runs.

Variable E : Env.

Lemma get_wb_data_returns indicator start_yr end_yr c save_csv w t w' :
  returns (get_wb_data E indicator start_yr end_yr c save_csv) w t w' →
  ∃ fetched,
    wb_download E (length (requests w)) indicator c start_yr end_yr = Ok fetched ∧
    t = sort_values_Region (reset_index_level0 (dropna fetched)) ∧
    requests w' = requests w ++ [Download indicator c start_yr end_yr] ∧
    figure w' = figure w.
Proof.
  unfold returns, get_wb_data, mbind, M_bind, download, set_indicator_name; simpl.
  destruct (wb_download _ _ _ _ _ _) as [fetched|e]; simpl; [|discriminate].
  intros Hrun. exists fetched. split; [done|].
  destruct save_csv; simpl in Hrun.
  - unfold write_file in Hrun.
    destruct (writable _ _); simpl in Hrun; [|discriminate].
    by injection Hrun as <- <-.
  - unfold mret, M_ret in Hrun. by injection Hrun as <- <-.
Qed.

End runs.

(** ** The year-indexed table *)

(** C1.  The index of the table [get_wb_data] returns holds exactly the
    years of the fetched observations whose value is not missing: each such
    year is in the index and the index holds no other year. *)
Theorem get_wb_data_index_years E indicator start_yr end_yr c save_csv w t w' :
  returns (get_wb_data E indicator start_yr end_yr c save_csv) w t w' →
  ∃ fetched,
    wb_download E (length (requests w)) indicator c start_yr end_yr = Ok fetched ∧
    ∀ y, y ∈ Year <$> t ↔ ∃ o, o ∈ fetched ∧ year o = y ∧ is_Some (value o).
Proof.
  intros (fetched & Hdl & -> & _)%get_wb_data_returns.
  exists fetched. split; [done|]. intros y.
  rewrite sort_values_Region_perm. unfold reset_index_level0, dropna.
  rewrite <-list_fmap_compose. rewrite list_elem_of_fmap. simpl.
  split.
  - intros (o & -> & [Hv Ho]%list_elem_of_filter). eauto.
  - intros (o & Ho & <- & Hv). exists o. split; [done|].
    apply list_elem_of_filter. done.
Qed.

Lemma get_wb_data_index_years_witness :
  returns (get_wb_data Demo.env "NY.GDP.PCAP.CD" (Some 2010%Z) (Some 2012%Z) (Code "all") false)
          Demo.world0 Demo.year_table (Demo.year_run false).2 ∧
  ∃ fetched,
    wb_download Demo.env 0 "NY.GDP.PCAP.CD" (Code "all") (Some 2010%Z) (Some 2012%Z) = Ok fetched ∧
    ∀ y, y ∈ Year <$> Demo.year_table ↔ ∃ o, o ∈ fetched ∧ year o = y ∧ is_Some (value o).
Proof.
  assert (Hrun : returns (get_wb_data Demo.env "NY.GDP.PCAP.CD" (Some 2010%Z) (Some 2012%Z)
                            (Code "all") false)
                         Demo.world0 Demo.year_table (Demo.year_run false).2)
    by (vm_compute; reflexivity).
  split; [exact Hrun|].
  exact (get_wb_data_index_years _ _ _ _ _ _ _ _ _ Hrun).
Defined.

Lemma dropna_all df : Forall (λ o, is_Some (value o)) df → dropna df = df.
Proof.
  unfold dropna. induction 1 as [|o df Ho _ IH]; [done|].
  by rewrite filter_cons_True, IH.
Qed.

(** C7.  The rows of the table [get_wb_data] returns are in ascending
    order of [Region]; when the source answers the query for SP.POP.TOTL,
    2010 to 2012, USA and CAN with the six country-year readings, none
    missing, the table has six rows, the three of Canada before the three
    of the United States. *)
Theorem get_wb_data_sorted_by_region E :
  (∀ indicator start_yr end_yr c save_csv w t w',
      returns (get_wb_data E indicator start_yr end_yr c save_csv) w t w' →
      StronglySorted region_le t) ∧
  (∀ save_csv w t w' fetched,
      wb_download E (length (requests w)) "SP.POP.TOTL" (Codes ["USA"; "CAN"])
                  (Some 2010%Z) (Some 2012%Z) = Ok fetched →
      (λ o, (country o, year o)) <$> fetched ≡ₚ usa_can_2010_2012 →
      Forall (λ o, is_Some (value o)) fetched →
      returns (get_wb_data E "SP.POP.TOTL" (Some 2010%Z) (Some 2012%Z)
                           (Codes ["USA"; "CAN"]) save_csv) w t w' →
      length t = 6 ∧
      Region <$> t = ["Canada"; "Canada"; "Canada";
                      "United States"; "United States"; "United States"]).
Proof.
  split.
  - intros indicator start_yr end_yr c save_csv w t w'
      (fetched & _ & -> & _)%get_wb_data_returns.
    apply sort_values_Region_sorted.
  - intros save_csv w t w' fetched Hdl Hkeys Hfull
      (fetched' & Hdl' & -> & _)%get_wb_data_returns.
    rewrite Hdl in Hdl'. injection Hdl' as <-.
    rewrite dropna_all by done.
    assert (Hregions : Region <$> sort_values_Region (reset_index_level0 fetched)
                       ≡ₚ fst <$> usa_can_2010_2012).
    { rewrite sort_values_Region_perm, <-Hkeys. unfold reset_index_level0.
      by rewrite <-!list_fmap_compose. }
    split.
    + rewrite <-(length_fmap Region), Hregions. reflexivity.
    + apply (StronglySorted_unique String.le).
      * eapply StronglySorted_fmap, sort_values_Region_sorted. done.
      * by apply (bool_decide_unpack _).
      * rewrite Hregions. by apply (bool_decide_unpack _).
Qed.

Lemma get_wb_data_sorted_by_region_witness :
  StronglySorted region_le Demo.year_table ∧
  length Demo.pop_table = 6 ∧
  Region <$> Demo.pop_table = ["Canada"; "Canada"; "Canada";
                               "United States"; "United States"; "United States"].
Proof.
  destruct (get_wb_data_sorted_by_region Demo.env) as [Hsorted _].
  destruct (get_wb_data_sorted_by_region Demo.pop_env) as [_ Hscenario].
  split.
  - apply (Hsorted "NY.GDP.PCAP.CD" (Some 2010%Z) (Some 2012%Z) (Code "all") false
                   Demo.world0 Demo.year_table (Demo.year_run false).2).
    vm_compute; reflexivity.
  - apply (Hscenario false Demo.world0 Demo.pop_table Demo.pop_run.2 Demo.pop_fetched).
    + reflexivity.
    + apply (bool_decide_unpack _). vm_compute; reflexivity.
    + apply (bool_decide_unpack _). vm_compute; reflexivity.
    + vm_compute; reflexivity.
Defined.

(** C9.  With a source that answers a fixed query the same way every
    time, a call of [get_wb_data] that does not save returns the same table
    as any other call with the same arguments, whatever happened in
    between: if one call returns [t], so does every other. *)
Theorem get_wb_data_repeatable E indicator start_yr end_yr c w t w1 :
  deterministic_source E →
  returns (get_wb_data E indicator start_yr end_yr c false) w t w1 →
  ∀ w2, ∃ w3, returns (get_wb_data E indicator start_yr end_yr c false) w2 t w3.
Proof.
  intros Hdet (fetched & Hdl & -> & _)%get_wb_data_returns w2.
  unfold returns, get_wb_data, mbind, M_bind, download, set_indicator_name; simpl.
  rewrite (Hdet _ (length (requests w))), Hdl. simpl.
  eexists. reflexivity.
Qed.

Lemma get_wb_data_repeatable_witness :
  deterministic_source Demo.env ∧
  ∃ w3, returns (get_wb_data Demo.env "NY.GDP.PCAP.CD" (Some 2010%Z) (Some 2012%Z)
                             (Code "all") false)
                (Demo.year_run false).2 Demo.year_table w3.
Proof.
  assert (Hdet : deterministic_source Demo.env) by (intros n m i c s e; reflexivity).
  split; [exact Hdet|].
  apply (get_wb_data_repeatable Demo.env "NY.GDP.PCAP.CD" (Some 2010%Z) (Some 2012%Z)
           (Code "all") Demo.world0 Demo.year_table (Demo.year_run false).2 Hdet).
  vm_compute; reflexivity.
Defined.

(** The assumption on the source is needed: when the source answers its
    first request with a reading and the later ones with none, the second of
    two successive calls returns another table than the first. *)
Lemma get_wb_data_source_may_change :
  ∃ t1 w1 t2 w2,
    returns (get_wb_data Demo.fickle_env "SP.POP.TOTL" (Some 2010%Z) (Some 2010%Z)
                         (Code "CAN") false) Demo.world0 t1 w1 ∧
    returns (get_wb_data Demo.fickle_env "SP.POP.TOTL" (Some 2010%Z) (Some 2010%Z)
                         (Code "CAN") false) w1 t2 w2 ∧
    t1 ≠ t2.
Proof.
  eexists _, _, _, _. split; [vm_compute; reflexivity|].
  split; [vm_compute; reflexivity|]. discriminate.
Qed.

(** ** The chart-race table *)

Section flourish_runs.

Variable E : Env.

Lemma to_flourish_returns indicator start_yr end_yr c save_csv w t w' :
  returns (to_flourish E indicator start_yr end_yr c save_csv) w t w' →
  ∃ fetched info,
    wb_download E (length (requests w)) indicator c start_yr end_yr = Ok fetched ∧
    wb_get_countries E (S (length (requests w))) = Ok info ∧
    t = mkWideFrame
          (p_years (pivot_table fetched))
          (insert_url_drop
             (merge (filter (λ c, region c ≠ "Aggregates") info) (pivot_table fetched))) ∧
    (save_csv = true →
       files w' = files w ++
         [("flourish_data/flourish_" +:+ indicator +:+ "_" +:+ now E +:+ ".csv",
           WideFrame_to_csv t)]).
Proof.
  unfold returns, to_flourish, mbind, M_bind, download, get_countries, print; simpl.
  destruct (wb_download _ _ _ _ _ _) as [fetched|e]; simpl; [|discriminate].
  rewrite length_app, Nat.add_1_r. simpl.
  destruct (wb_get_countries _ _) as [info|e]; simpl; [|discriminate].
  intros Hrun. exists fetched, info. split; [done|]. split; [done|].
  destruct save_csv; simpl in Hrun.
  - unfold write_file in Hrun.
    destruct (writable _ _); simpl in Hrun; [|discriminate].
    by injection Hrun as <- <-.
  - unfold mret, M_ret in Hrun. by injection Hrun as <- <-.
Qed.

End flourish_runs.

(** C2.  No row of the table [to_flourish] returns has the region
    Aggregates. *)
Theorem to_flourish_no_aggregates E indicator start_yr end_yr c save_csv w t w' :
  returns (to_flourish E indicator start_yr end_yr c save_csv) w t w' →
  ∀ r, r ∈ w_rows t → w_region r ≠ "Aggregates".
Proof.
  intros (fetched & info & _ & _ & -> & _)%to_flourish_returns r. simpl.
  unfold insert_url_drop, merge.
  intros (m & -> & Hm)%list_elem_of_fmap. simpl.
  apply list_elem_of_bind in Hm as (l & Hm & [Hl _]%list_elem_of_filter).
  apply list_elem_of_bind in Hm as (p & ->%list_elem_of_singleton & _).
  done.
Qed.

Lemma to_flourish_no_aggregates_witness :
  returns (to_flourish Demo.env "NY.GDP.PCAP.CD" (Some 2010%Z) (Some 2012%Z) (Code "all") true)
          Demo.world0 Demo.flourish_table (Demo.flourish_run true).2 ∧
  ∀ r, r ∈ w_rows Demo.flourish_table → w_region r ≠ "Aggregates".
Proof.
  assert (Hrun : returns (to_flourish Demo.env "NY.GDP.PCAP.CD" (Some 2010%Z) (Some 2012%Z)
                            (Code "all") true)
                         Demo.world0 Demo.flourish_table (Demo.flourish_run true).2)
    by (vm_compute; reflexivity).
  split; [exact Hrun|].
  exact (to_flourish_no_aggregates _ _ _ _ _ _ _ _ _ Hrun).
Defined.

(** The rows of the merge are the pairs of a left row and a right row with
    equal keys. *)
Lemma elem_of_merge left right m :
  m ∈ merge left right ↔
  ∃ l p, l ∈ left ∧ p ∈ p_rows right ∧ p.1 = name l ∧
         m = mkMerged (iso2c l) (name l) (region l) p.1 p.2.
Proof.
  unfold merge. rewrite list_elem_of_bind. split.
  - intros (l & Hm & Hl).
    apply list_elem_of_bind in Hm as (p & ->%list_elem_of_singleton & Hp).
    apply list_elem_of_filter in Hp as [Hkey Hp]. by exists l, p.
  - intros (l & p & Hl & Hp & Hkey & ->). exists l. split; [|done].
    apply list_elem_of_bind. exists p. split; [by apply list_elem_of_singleton|].
    by apply list_elem_of_filter.
Qed.

(** C3, as the code has it.  The join keeps only matches: the rows of the
    returned table are the pairs of a metadata row outside Aggregates and a
    pivoted row with the same name; a pivoted row whose country is the name
    of no such metadata row gives no row of the table; and this raises no
    error, the call returns as soon as the two remote calls answer and
    nothing is saved. *)
Theorem to_flourish_inner_join E indicator start_yr end_yr c w fetched info :
  wb_download E (length (requests w)) indicator c start_yr end_yr = Ok fetched →
  wb_get_countries E (S (length (requests w))) = Ok info →
  ∃ t w',
    returns (to_flourish E indicator start_yr end_yr c false) w t w' ∧
    (∀ r, r ∈ w_rows t ↔
          ∃ m p, m ∈ info ∧ region m ≠ "Aggregates" ∧
                 p ∈ p_rows (pivot_table fetched) ∧ p.1 = name m ∧
                 r = mkWideRow (name m) (region m) (image_url (iso2c m)) p.2) ∧
    (∀ p, p ∈ p_rows (pivot_table fetched) →
          (∀ m, m ∈ info → region m ≠ "Aggregates" → name m ≠ p.1) →
          ∀ r, r ∈ w_rows t → w_name r ≠ p.1).
Proof.
  intros Hdl Hinfo.
  assert (Hrows : ∀ r,
    r ∈ insert_url_drop
          (merge (filter (λ c, region c ≠ "Aggregates") info) (pivot_table fetched)) ↔
    ∃ m p, m ∈ info ∧ region m ≠ "Aggregates" ∧
           p ∈ p_rows (pivot_table fetched) ∧ p.1 = name m ∧
           r = mkWideRow (name m) (region m) (image_url (iso2c m)) p.2).
  { intros r. unfold insert_url_drop. rewrite list_elem_of_fmap. split.
    - intros (m & -> & (l & p & [Hreg Hl]%list_elem_of_filter & Hp & Hkey & ->)%elem_of_merge).
      by exists l, p.
    - intros (l & p & Hl & Hreg & Hp & Hkey & ->).
      exists (mkMerged (iso2c l) (name l) (region l) p.1 p.2). split; [done|].
      apply elem_of_merge. exists l, p. split; [|done].
      by apply list_elem_of_filter. }
  eexists _, _. split; [|split].
  - unfold returns, to_flourish, mbind, M_bind, download, get_countries, print; simpl.
    rewrite Hdl. simpl. rewrite length_app, Nat.add_1_r. simpl.
    rewrite Hinfo. simpl. reflexivity.
  - exact Hrows.
  - simpl. intros p Hp Hnone r (m & p' & Hm & Hreg & _ & _ & ->)%Hrows. simpl.
    by apply Hnone.
Qed.

Lemma to_flourish_inner_join_witness :
  wb_download Demo.env (length (requests Demo.world0)) "NY.GDP.PCAP.CD" (Code "all")
              (Some 2010%Z) (Some 2012%Z) = Ok Demo.fetched ∧
  wb_get_countries Demo.env (S (length (requests Demo.world0))) = Ok Demo.countries ∧
  ∃ t w',
    returns (to_flourish Demo.env "NY.GDP.PCAP.CD" (Some 2010%Z) (Some 2012%Z) (Code "all") false)
            Demo.world0 t w' ∧
    (∀ r, r ∈ w_rows t ↔
          ∃ m p, m ∈ Demo.countries ∧ region m ≠ "Aggregates" ∧
                 p ∈ p_rows (pivot_table Demo.fetched) ∧ p.1 = name m ∧
                 r = mkWideRow (name m) (region m) (image_url (iso2c m)) p.2) ∧
    (∀ p, p ∈ p_rows (pivot_table Demo.fetched) →
          (∀ m, m ∈ Demo.countries → region m ≠ "Aggregates" → name m ≠ p.1) →
          ∀ r, r ∈ w_rows t → w_name r ≠ p.1).
Proof.
  split; [reflexivity|]. split; [reflexivity|].
  apply (to_flourish_inner_join Demo.env "NY.GDP.PCAP.CD" (Some 2010%Z) (Some 2012%Z)
           (Code "all") Demo.world0 Demo.fetched Demo.countries); reflexivity.
Defined.

(** C3, as the claim has it, fails: Atlantis is a row of the pivoted
    table and the name of no metadata row, and the returned table has no
    row with its readings. *)
Lemma to_flourish_drops_unmatched :
  ∃ t w' p,
    returns (to_flourish Demo.env "NY.GDP.PCAP.CD" (Some 2010%Z) (Some 2012%Z) (Code "all") false)
            Demo.world0 t w' ∧
    p ∈ p_rows (pivot_table Demo.fetched) ∧
    p.1 = "Atlantis" ∧
    (∀ m, m ∈ Demo.countries → name m ≠ p.1) ∧
    ¬ ∃ r, r ∈ w_rows t ∧ w_cells r = p.2.
Proof.
  exists Demo.flourish_table, (Demo.flourish_run false).2,
         ("Atlantis", [Some (7 # 1)%Q; None]).
  split; [vm_compute; reflexivity|].
  split.
  { replace (p_rows (pivot_table Demo.fetched)) with (p_rows Demo.pivoted)
      by (vm_compute; reflexivity).
    unfold Demo.pivoted. simpl. constructor. }
  split; [reflexivity|].
  split.
  - intros m Hm. simpl. unfold Demo.countries in Hm.
    repeat (apply elem_of_cons in Hm as [->|Hm]; [discriminate|]).
    by apply elem_of_nil in Hm.
  - intros (r & Hr & Hcells). unfold Demo.flourish_table in Hr. simpl in Hr.
    repeat (apply elem_of_cons in Hr as [->|Hr]; [discriminate|]).
    by apply elem_of_nil in Hr.
Qed.

(** *** The axes of the pivot *)

Lemma elem_of_sorted_labels l x : x ∈ sorted_labels l ↔ x ∈ l.
Proof. unfold sorted_labels. by rewrite merge_sort_Permutation, elem_of_remove_dups. Qed.

Lemma NoDup_sorted_labels l : NoDup (sorted_labels l).
Proof. unfold sorted_labels. rewrite merge_sort_Permutation. apply NoDup_remove_dups. Qed.

Lemma sorted_labels_sorted l : StronglySorted String.le (sorted_labels l).
Proof. apply StronglySorted_merge_sort; apply _. Qed.

Lemma elem_of_pivot_years fetched y :
  y ∈ p_years (pivot_table fetched) ↔
  ∃ o, o ∈ fetched ∧ year o = y ∧ is_Some (value o).
Proof.
  simpl. rewrite elem_of_sorted_labels, list_elem_of_fmap. unfold dropna. split.
  - intros (o & -> & [Hv Ho]%list_elem_of_filter). eauto.
  - intros (o & Ho & <- & Hv). exists o. split; [done|]. by apply list_elem_of_filter.
Qed.

Lemma pivot_countries fetched :
  fst <$> p_rows (pivot_table fetched) = sorted_labels (country <$> dropna fetched).
Proof. simpl. rewrite <-list_fmap_compose. apply list_fmap_id. Qed.

Lemma elem_of_pivot_countries fetched n :
  n ∈ fst <$> p_rows (pivot_table fetched) ↔
  ∃ o, o ∈ fetched ∧ country o = n ∧ is_Some (value o).
Proof.
  rewrite pivot_countries, elem_of_sorted_labels, list_elem_of_fmap. unfold dropna. split.
  - intros (o & -> & [Hv Ho]%list_elem_of_filter). eauto.
  - intros (o & Ho & <- & Hv). exists o. split; [done|]. by apply list_elem_of_filter.
Qed.

Lemma pivot_cells_length fetched p :
  p ∈ p_rows (pivot_table fetched) →
  length p.2 = length (p_years (pivot_table fetched)).
Proof.
  simpl. intros (n & -> & _)%list_elem_of_fmap. simpl. by rewrite length_fmap.
Qed.

(** *** One row per name *)

Lemma filter_key_at_most_one {V} (rows : list (string * V)) x :
  NoDup (fst <$> rows) →
  length (filter (λ r, r.1 = x) rows) ≤ 1.
Proof.
  induction rows as [|r rows IH]; [simpl; lia|].
  rewrite fmap_cons, NoDup_cons. intros [Hr Hrows].
  rewrite filter_cons. destruct (decide (r.1 = x)) as [Heq|Hne]; [|by apply IH].
  assert (Hnone : filter (λ r, r.1 = x) rows = []).
  { destruct (filter _ rows) as [|r' rest] eqn:Hf; [done|]. exfalso.
    assert (Hin : r' ∈ filter (λ r, r.1 = x) rows) by (rewrite Hf; left).
    apply list_elem_of_filter in Hin as [Hkey Hin].
    apply Hr. rewrite Heq, <-Hkey. by apply list_elem_of_fmap_2. }
  rewrite Hnone. simpl. lia.
Qed.

Lemma merge_names left right m :
  m ∈ merge left right → m_name m ∈ name <$> left.
Proof.
  intros (l & p & Hl & _ & _ & ->)%elem_of_merge. simpl. by apply list_elem_of_fmap_2.
Qed.

Lemma merge_names_NoDup left right :
  NoDup (name <$> left) →
  NoDup (fst <$> p_rows right) →
  NoDup (m_name <$> merge left right).
Proof.
  intros Hleft Hright. induction left as [|l left IH]; [constructor|].
  rewrite fmap_cons, NoDup_cons in Hleft. destruct Hleft as [Hl Hleft].
  change (merge (l :: left) right)
    with ((filter (λ r, r.1 = name l) (p_rows right)
             ≫= λ r, [mkMerged (iso2c l) (name l) (region l) r.1 r.2])
          ++ merge left right).
  rewrite fmap_app. apply NoDup_app. split; [|split].
  - pose proof (filter_key_at_most_one (p_rows right) (name l) Hright) as Hlen.
    destruct (filter _ (p_rows right)) as [|r [|r' rest]]; simpl in *.
    + constructor.
    + apply NoDup_singleton.
    + lia.
  - intros n (m & -> & Hm)%list_elem_of_fmap.
    apply list_elem_of_bind in Hm as (r & ->%list_elem_of_singleton & _). simpl.
    intros (m & Hn & Hm%merge_names)%list_elem_of_fmap.
    apply Hl. by rewrite Hn.
  - by apply IH.
Qed.

(** C5, as the code has it.  The file written by a saving call of
    [to_flourish] has the header name, region, Image URL followed by the
    year columns and nothing else; the year columns are the years with a
    reading that is not missing, each once, in ascending order; the file has
    one record per row of the returned table, each as long as the header;
    the rows are for the countries that have a reading and bear the name of
    a metadata row outside Aggregates, one row each when these metadata rows
    have distinct names. *)
Theorem to_flourish_csv_layout E indicator start_yr end_yr c w t w' :
  returns (to_flourish E indicator start_yr end_yr c true) w t w' →
  ∃ fetched info path file,
    wb_download E (length (requests w)) indicator c start_yr end_yr = Ok fetched ∧
    wb_get_countries E (S (length (requests w))) = Ok info ∧
    files w' = files w ++ [(path, file)] ∧
    header file = ["name"; "region"; "Image URL"] ++ w_years t ∧
    StronglySorted String.le (w_years t) ∧
    NoDup (w_years t) ∧
    (∀ y, y ∈ w_years t ↔ ∃ o, o ∈ fetched ∧ year o = y ∧ is_Some (value o)) ∧
    records file
      = ((λ r, [FStr (w_name r); FStr (w_region r); FStr (w_image_url r)]
               ++ (FNum <$> w_cells r)) <$> w_rows t) ∧
    Forall (λ record, length record = length (header file)) (records file) ∧
    (∀ n, n ∈ w_name <$> w_rows t ↔
          (∃ o, o ∈ fetched ∧ country o = n ∧ is_Some (value o)) ∧
          (∃ m, m ∈ info ∧ name m = n ∧ region m ≠ "Aggregates")) ∧
    (NoDup (name <$> filter (λ m, region m ≠ "Aggregates") info) →
     NoDup (w_name <$> w_rows t)).
Proof.
  intros (fetched & info & Hdl & Hinfo & -> & Hfile)%to_flourish_returns.
  specialize (Hfile eq_refl).
  eexists fetched, info, _, _.
  split; [done|]. split; [done|]. split; [exact Hfile|].
  split; [reflexivity|].
  split; [apply sorted_labels_sorted|].
  split; [apply NoDup_sorted_labels|].
  split; [apply elem_of_pivot_years|].
  split; [reflexivity|].
  split; [|split].
  - cbn [WideFrame_to_csv records header w_rows w_years].
    rewrite Forall_fmap. apply Forall_forall. intros r Hr. simpl.
    unfold insert_url_drop in Hr.
    apply list_elem_of_fmap in Hr as (m & -> & Hm).
    apply elem_of_merge in Hm as (l & p & _ & Hp & _ & ->). simpl.
    rewrite length_fmap. f_equal. f_equal. f_equal.
    by apply pivot_cells_length in Hp.
  - intros n. cbn [w_rows]. unfold insert_url_drop.
    rewrite <-list_fmap_compose, list_elem_of_fmap.
    rewrite <-elem_of_pivot_countries. split.
    + intros (m & -> & (l & p & [Hreg Hl]%list_elem_of_filter & Hp & Hkey & ->)%elem_of_merge).
      simpl. split; [|by exists l].
      rewrite <-Hkey. by apply list_elem_of_fmap_2.
    + intros [(p & -> & Hp)%list_elem_of_fmap (l & Hl & Hkey & Hreg)].
      exists (mkMerged (iso2c l) (name l) (region l) p.1 p.2). split; [done|].
      apply elem_of_merge. exists l, p. split; [|done].
      by apply list_elem_of_filter.
  - intros Hnames. cbn [w_rows]. unfold insert_url_drop.
    rewrite <-list_fmap_compose.
    apply (merge_names_NoDup _ (pivot_table fetched) Hnames).
    rewrite pivot_countries. apply NoDup_sorted_labels.
Qed.

Lemma to_flourish_csv_layout_witness :
  returns (to_flourish Demo.env "NY.GDP.PCAP.CD" (Some 2010%Z) (Some 2012%Z) (Code "all") true)
          Demo.world0 Demo.flourish_table (Demo.flourish_run true).2 ∧
  ∃ path file,
    files (Demo.flourish_run true).2 = [(path, file)] ∧
    header file = ["name"; "region"; "Image URL"; "2010"; "2012"] ∧
    length (records file) = 2.
Proof.
  assert (Hrun : returns (to_flourish Demo.env "NY.GDP.PCAP.CD" (Some 2010%Z) (Some 2012%Z)
                            (Code "all") true)
                         Demo.world0 Demo.flourish_table (Demo.flourish_run true).2)
    by (vm_compute; reflexivity).
  split; [exact Hrun|].
  destruct (to_flourish_csv_layout _ _ _ _ _ _ _ _ Hrun)
    as (fetched & info & path & file & _ & _ & Hfiles & Hheader & _ & _ & _ & Hrecords & _).
  exists path, file. split; [exact Hfiles|]. split; [exact Hheader|].
  rewrite Hrecords. reflexivity.
Defined.

(** C5, as the claim has it, fails: for the years 2010 to 2012 the file
    written has the header name, region, Image URL, 2010, 2012.  It does not
    start with Region, Image URL, and 2011, for which the only reading is
    missing, has no column. *)
Lemma to_flourish_csv_header_differs :
  ∃ t w' path file,
    returns (to_flourish Demo.env "NY.GDP.PCAP.CD" (Some 2010%Z) (Some 2012%Z) (Code "all") true)
            Demo.world0 t w' ∧
    files w' = [(path, file)] ∧
    header file = ["name"; "region"; "Image URL"; "2010"; "2012"] ∧
    (∀ years, header file ≠ "Region" :: "Image URL" :: years) ∧
    "2011" ∉ header file.
Proof.
  eexists Demo.flourish_table, (Demo.flourish_run true).2, _, _.
  split; [vm_compute; reflexivity|].
  split; [reflexivity|].
  split; [reflexivity|].
  split; [discriminate|].
  simpl. intros Hin.
  repeat (apply elem_of_cons in Hin as [Hin|Hin]; [discriminate|]).
  by apply elem_of_nil in Hin.
Qed.

(** ** The persist flag *)

(** C10.  For [to_flourish] and for [get_wb_data], all else equal, the
    flag [save_csv] does not change the table returned: a saving call that
    returns a table leaves a world that differs from the world of the
    non-saving call in the files only, and the non-saving call returns the
    same table and writes nothing; conversely, when the non-saving call
    returns a table, the saving call returns that table too, unless writing
    the file fails. *)
Theorem save_csv_keeps_result E indicator start_yr end_yr c w :
  (∀ t w1, returns (to_flourish E indicator start_yr end_yr c true) w t w1 →
     ∃ w2, returns (to_flourish E indicator start_yr end_yr c false) w t w2 ∧
           same_but_files w1 w2 ∧ files w2 = files w) ∧
  (∀ t w2, returns (to_flourish E indicator start_yr end_yr c false) w t w2 →
     (∃ w1, returns (to_flourish E indicator start_yr end_yr c true) w t w1) ∨
     (∃ path w1, to_flourish E indicator start_yr end_yr c true w
                 = (Raise (IOFailure path), w1))) ∧
  (∀ t w1, returns (get_wb_data E indicator start_yr end_yr c true) w t w1 →
     ∃ w2, returns (get_wb_data E indicator start_yr end_yr c false) w t w2 ∧
           same_but_files w1 w2 ∧ files w2 = files w) ∧
  (∀ t w2, returns (get_wb_data E indicator start_yr end_yr c false) w t w2 →
     (∃ w1, returns (get_wb_data E indicator start_yr end_yr c true) w t w1) ∨
     (∃ path w1, get_wb_data E indicator start_yr end_yr c true w
                 = (Raise (IOFailure path), w1))).
Proof.
  unfold returns, to_flourish, get_wb_data, mbind, M_bind, mret, M_ret,
    download, get_countries, print, set_indicator_name, write_file; simpl.
  destruct (wb_download _ _ _ _ _ _) as [fetched|e]; simpl;
    [|repeat split; intros; discriminate].
  destruct (wb_get_countries _ _) as [info|e]; simpl.
  - split; [|split; [|split]].
    + intros t w1. destruct (writable _ _); simpl; [|discriminate].
      intros [= <- <-]. eexists. split; [reflexivity|]. by repeat split.
    + intros t w2 [= <- <-]. destruct (writable _ _); simpl; eauto.
    + intros t w1. destruct (writable _ _); simpl; [|discriminate].
      intros [= <- <-]. eexists. split; [reflexivity|]. by repeat split.
    + intros t w2 [= <- <-]. destruct (writable _ _); simpl; eauto.
  - split; [|split; [|split]]; try (intros; discriminate).
    + intros t w1. destruct (writable _ _); simpl; [|discriminate].
      intros [= <- <-]. eexists. split; [reflexivity|]. by repeat split.
    + intros t w2 [= <- <-]. destruct (writable _ _); simpl; eauto.
Qed.

Lemma save_csv_keeps_result_witness :
  returns (to_flourish Demo.env "NY.GDP.PCAP.CD" (Some 2010%Z) (Some 2012%Z) (Code "all") true)
          Demo.world0 Demo.flourish_table (Demo.flourish_run true).2 ∧
  returns (get_wb_data Demo.env "NY.GDP.PCAP.CD" (Some 2010%Z) (Some 2012%Z) (Code "all") true)
          Demo.world0 Demo.year_table (Demo.year_run true).2 ∧
  (∃ w2, returns (to_flourish Demo.env "NY.GDP.PCAP.CD" (Some 2010%Z) (Some 2012%Z)
                              (Code "all") false)
                 Demo.world0 Demo.flourish_table w2 ∧
         same_but_files (Demo.flourish_run true).2 w2 ∧ files w2 = files Demo.world0) ∧
  (∃ w2, returns (get_wb_data Demo.env "NY.GDP.PCAP.CD" (Some 2010%Z) (Some 2012%Z)
                              (Code "all") false)
                 Demo.world0 Demo.year_table w2 ∧
         same_but_files (Demo.year_run true).2 w2 ∧ files w2 = files Demo.world0).
Proof.
  assert (Hwide : returns (to_flourish Demo.env "NY.GDP.PCAP.CD" (Some 2010%Z) (Some 2012%Z)
                             (Code "all") true)
                          Demo.world0 Demo.flourish_table (Demo.flourish_run true).2)
    by (vm_compute; reflexivity).
  assert (Hyear : returns (get_wb_data Demo.env "NY.GDP.PCAP.CD" (Some 2010%Z) (Some 2012%Z)
                             (Code "all") true)
                          Demo.world0 Demo.year_table (Demo.year_run true).2)
    by (vm_compute; reflexivity).
  destruct (save_csv_keeps_result Demo.env "NY.GDP.PCAP.CD" (Some 2010%Z) (Some 2012%Z)
              (Code "all") Demo.world0) as (Hw & _ & Hy & _).
  split; [exact Hwide|]. split; [exact Hyear|].
  split; [exact (Hw _ _ Hwide) | exact (Hy _ _ Hyear)].
Defined.

(** ** The persisted year-indexed file *)

(** C4.  A saving run of [get_wb_data]: the table returned has the years
    2010 and 2012 in its index, and the file written has the header Region,
    indicator and one record of region and value per row; the years of the
    rows are not in the file. *)
Theorem get_wb_data_csv_lacks_year :
  ∃ w' path file,
    returns (get_wb_data Demo.env "NY.GDP.PCAP.CD" (Some 2010%Z) (Some 2012%Z) (Code "all") true)
            Demo.world0 Demo.year_table w' ∧
    Year <$> Demo.year_table = ["2010"; "2012"; "2010"; "2012"; "2010"] ∧
    files w' = [(path, file)] ∧
    header file = ["Region"; "NY.GDP.PCAP.CD"] ∧
    records file = [[FStr "Atlantis"; FNum (Some (7 # 1)%Q)];
                    [FStr "Canada"; FNum (Some (1 # 2)%Q)];
                    [FStr "Canada"; FNum (Some (5 # 1)%Q)];
                    [FStr "United States"; FNum (Some (3 # 1)%Q)];
                    [FStr "World"; FNum (Some (9 # 1)%Q)]].
Proof.
  eexists (Demo.year_run true).2, _, _.
  split; [vm_compute; reflexivity|].
  repeat split; reflexivity.
Qed.

(** ** The bar chart *)

Lemma returns_bind {A B} (m : M A) (f : A → M B) w b w' :
  returns (m ≫= f) w b w' →
  ∃ a w1, returns m w a w1 ∧ returns (f a) w1 b w'.
Proof.
  unfold returns, mbind, M_bind.
  destruct (m w) as [[a|e] w1]; [|discriminate]. eauto.
Qed.

Lemma filter_all {A} (P : A → Prop) `{∀ x, Decision (P x)} (l : list A) :
  Forall P l → filter P l = l.
Proof.
  induction 1 as [|x l Hx _ IH]; [done|]. by rewrite filter_cons_True, IH.
Qed.

Lemma str_max_ge_l a b : String.le a (str_max a b).
Proof. unfold str_max. destruct (decide (String.le a b)); [done|reflexivity]. Qed.

Lemma str_max_ge_r a b : String.le b (str_max a b).
Proof.
  unfold str_max. destruct (decide (String.le a b)) as [|Hn]; [reflexivity|].
  by destruct (total String.le a b).
Qed.

Lemma foldl_str_max ys y :
  foldl str_max y ys ∈ y :: ys ∧
  ∀ x, x ∈ y :: ys → String.le x (foldl str_max y ys).
Proof.
  revert y. induction ys as [|a ys IH]; intros y; simpl.
  - split; [left|]. by intros x ->%list_elem_of_singleton.
  - destruct (IH (str_max y a)) as [Hin Hmax]. split.
    + apply elem_of_cons in Hin as [->|Hin].
      * unfold str_max. destruct (decide _); [right; left | left].
      * by do 2 right.
    + intros x [->|[->|Hx]%elem_of_cons]%elem_of_cons.
      * etrans; [apply str_max_ge_l|]. apply Hmax. left.
      * etrans; [apply str_max_ge_r|]. apply Hmax. left.
      * apply Hmax. by right.
Qed.

(** The greatest label of a non-empty index. *)
Lemma index_max_nonempty df :
  df ≠ [] →
  ∃ ymax, index_max df = PStr ymax ∧ ymax ∈ Year <$> df ∧
          ∀ y, y ∈ Year <$> df → String.le y ymax.
Proof.
  intros Hne. unfold index_max. destruct df as [|r df]; [done|].
  rewrite fmap_cons. exists (foldl str_max (Year r) (Year <$> df)).
  split; [done|]. apply foldl_str_max.
Qed.

Lemma plot_bar_chart_returns E indicator year c title colour save w u w' :
  returns (plot_bar_chart E indicator year c title colour save) w u w' →
  ∃ df w1 rest,
    returns (get_wb_data E indicator year year c false) w df w1 ∧
    requests w' = requests w1 ∧
    figure w' = figure w1 ++
      Barplot indicator "Region"
        (sort_values_desc
           (sort_values_Region
              (filter (λ r, Year r = py_str (match year with
                                             | None => index_max df
                                             | Some z => PInt z
                                             end)) df)))
        colour :: rest.
Proof.
  unfold plot_bar_chart. intros (df & w1 & Hdf & Hrun)%returns_bind.
  exists df, w1. revert Hrun.
  unfold returns, mbind, M_bind, mret, M_ret, plt; simpl.
  destruct save; simpl; intros [= _ <-]; simpl; eexists;
    (split; [done|]); (split; [done|]);
    rewrite <-!app_assoc; reflexivity.
Qed.

Lemma elem_of_year_table fetched r :
  r ∈ sort_values_Region (reset_index_level0 (dropna fetched)) ↔
  ∃ o, o ∈ fetched ∧ is_Some (value o) ∧ r = mkYRow (year o) (country o) (value o).
Proof.
  rewrite sort_values_Region_perm. unfold reset_index_level0, dropna.
  rewrite list_elem_of_fmap. split.
  - intros (o & -> & [Hv Ho]%list_elem_of_filter). eauto.
  - intros (o & Ho & Hv & ->). exists o. split; [done|]. by apply list_elem_of_filter.
Qed.

(** C6.  Called with no year, [plot_bar_chart] makes one request, with
    [None] as the start and as the end of the range; the year it plots is
    computed from the table that request gave: the rows passed to the bar
    plot are the rows of that table whose year is its [index.max()], which
    for a table with rows is the greatest year in its index. *)
Theorem plot_bar_chart_default_year E indicator c title colour save w w' :
  returns (plot_bar_chart E indicator None c title colour save) w () w' →
  ∃ df w1 data rest,
    returns (get_wb_data E indicator None None c false) w df w1 ∧
    requests w' = requests w ++ [Download indicator c None None] ∧
    figure w' = figure w ++ Barplot indicator "Region" data colour :: rest ∧
    data ≡ₚ filter (λ r, Year r = py_str (index_max df)) df ∧
    (df ≠ [] →
     ∃ ymax, index_max df = PStr ymax ∧
             ymax ∈ Year <$> df ∧
             (∀ y, y ∈ Year <$> df → String.le y ymax) ∧
             (∃ r, r ∈ data) ∧
             (∀ r, r ∈ data ↔ r ∈ df ∧ Year r = ymax)).
Proof.
  intros (df & w1 & rest & Hdf & Hreq & Hfig)%plot_bar_chart_returns.
  destruct (get_wb_data_returns _ _ _ _ _ _ _ _ _ Hdf) as (fetched & _ & _ & Hreq1 & Hfig1).
  eexists df, w1, _, rest. split; [exact Hdf|].
  split; [by rewrite Hreq|].
  split; [by rewrite Hfig, Hfig1|].
  assert (Hdata : sort_values_desc (sort_values_Region
                    (filter (λ r, Year r = py_str (index_max df)) df))
                  ≡ₚ filter (λ r, Year r = py_str (index_max df)) df)
    by (by rewrite sort_values_desc_perm, sort_values_Region_perm).
  split; [exact Hdata|].
  intros (ymax & Hmax & Hin & Hge)%index_max_nonempty.
  exists ymax. split; [done|]. split; [done|]. split; [done|].
  rewrite Hmax in Hdata |- *. simpl in Hdata |- *.
  split.
  - apply list_elem_of_fmap in Hin as (r & -> & Hr). exists r.
    rewrite Hdata. by apply list_elem_of_filter.
  - intros r. rewrite Hdata, list_elem_of_filter. tauto.
Qed.

Lemma plot_bar_chart_default_year_witness :
  returns (plot_bar_chart Demo.env "NY.GDP.PCAP.CD" None (Code "all") "GDP per head"
                          "darkslategrey" false)
          Demo.world0 () Demo.bar_run.2 ∧
  ∃ df w1 data rest,
    returns (get_wb_data Demo.env "NY.GDP.PCAP.CD" None None (Code "all") false)
            Demo.world0 df w1 ∧
    requests Demo.bar_run.2
      = requests Demo.world0 ++ [Download "NY.GDP.PCAP.CD" (Code "all") None None] ∧
    figure Demo.bar_run.2
      = figure Demo.world0 ++ Barplot "NY.GDP.PCAP.CD" "Region" data "darkslategrey" :: rest ∧
    data ≡ₚ filter (λ r, Year r = py_str (index_max df)) df.
Proof.
  assert (Hrun : returns (plot_bar_chart Demo.env "NY.GDP.PCAP.CD" None (Code "all")
                            "GDP per head" "darkslategrey" false)
                         Demo.world0 () Demo.bar_run.2)
    by (vm_compute; reflexivity).
  split; [exact Hrun|].
  destruct (plot_bar_chart_default_year _ _ _ _ _ _ _ _ Hrun)
    as (df & w1 & data & rest & Hdf & Hreq & Hfig & Hdata & _).
  by exists df, w1, data, rest.
Defined.

Lemma index_max_constant df ys :
  df ≠ [] → Forall (λ r, Year r = ys) df → index_max df = PStr ys.
Proof.
  intros (ymax & -> & (r & -> & Hr)%list_elem_of_fmap & _)%index_max_nonempty Hall.
  rewrite Forall_forall in Hall. by rewrite (Hall r Hr).
Qed.

(** C8.  The rows [plot_bar_chart] passes to the bar plot are in
    descending order of the indicator value, none of them missing; for a
    fetched table of one year with three regions whose values are ordered as
    5.1, 9.4 and 2.0 are, the bars are the region of the second value, then
    that of the first, then that of the third. *)
Theorem plot_bar_chart_descending E indicator c title colour save w w' :
  (∀ year,
      returns (plot_bar_chart E indicator year c title colour save) w () w' →
      ∃ data rest,
        figure w' = figure w ++ Barplot indicator "Region" data colour :: rest ∧
        StronglySorted value_ge data ∧
        Forall (λ r, is_Some (Value r)) data) ∧
  (∀ year ys r1 r2 r3 v1 v2 v3,
      match year with Some z => pretty z = ys | None => True end →
      wb_download E (length (requests w)) indicator c year year
        = Ok [mkObs r1 ys (Some v1); mkObs r2 ys (Some v2); mkObs r3 ys (Some v3)] →
      (v3 < v1)%Q → (v1 < v2)%Q →
      returns (plot_bar_chart E indicator year c title colour save) w () w' →
      ∃ rest,
        figure w' = figure w ++
          Barplot indicator "Region"
                  [mkYRow ys r2 (Some v2); mkYRow ys r1 (Some v1); mkYRow ys r3 (Some v3)]
                  colour :: rest).
Proof.
  split.
  - intros year (df & w1 & rest & Hdf & _ & Hfig)%plot_bar_chart_returns.
    destruct (get_wb_data_returns _ _ _ _ _ _ _ _ _ Hdf) as (fetched & _ & -> & _ & Hfig1).
    eexists _, rest. split; [by rewrite Hfig, Hfig1|].
    split; [apply sort_values_desc_sorted|].
    apply Forall_forall. intros r.
    rewrite sort_values_desc_perm, sort_values_Region_perm, list_elem_of_filter.
    intros [_ (o & _ & Hv & ->)%elem_of_year_table]. done.
  - intros year ys r1 r2 r3 v1 v2 v3 Hyear Hdl H31 H12
      (df & w1 & rest & Hdf & _ & Hfig)%plot_bar_chart_returns.
    destruct (get_wb_data_returns _ _ _ _ _ _ _ _ _ Hdf) as (fetched & Hdl' & Hdf' & _ & Hfig1).
    rewrite Hdl in Hdl'. injection Hdl' as <-.
    exists rest. rewrite Hfig, Hfig1. do 3 f_equal.
    set (a := mkYRow ys r1 (Some v1)). set (b := mkYRow ys r2 (Some v2)).
    set (d := mkYRow ys r3 (Some v3)).
    assert (Hperm : df ≡ₚ [a; b; d]).
    { rewrite Hdf', sort_values_Region_perm.
      rewrite dropna_all by (repeat constructor; done). done. }
    assert (Hall : Forall (λ r, Year r = ys) df).
    { rewrite Hperm. by repeat constructor. }
    assert (Hne : df ≠ []).
    { intros ->. by apply Permutation_nil_cons in Hperm. }
    assert (Hresolved : py_str (match year with
                                | None => index_max df
                                | Some z => PInt z
                                end) = ys).
    { destruct year as [z|]; [done|]. by rewrite (index_max_constant df ys). }
    rewrite Hresolved, (filter_all _ df Hall).
    assert (H32 : (v3 < v2)%Q) by (by apply Qlt_trans with v1).
    apply (StronglySorted_unique_strong value_ge).
    + intros x1 x2 Hx1 Hx2.
      rewrite sort_values_desc_perm, sort_values_Region_perm, Hperm in Hx1.
      unfold value_ge.
      repeat (apply elem_of_cons in Hx1 as [->|Hx1]);
        [| | |by apply elem_of_nil in Hx1];
        (repeat (apply elem_of_cons in Hx2 as [->|Hx2]);
           [| | |by apply elem_of_nil in Hx2]);
        simpl; intros Hge1 Hge2; try done;
        exfalso;
        match goal with
        | Hlt : (?x < ?y)%Q, Hle : (?y <= ?x)%Q |- _ => exact (Qlt_not_le x y Hlt Hle)
        end.
    + apply sort_values_desc_sorted.
    + unfold value_ge. repeat constructor; simpl; by apply Qlt_le_weak.
    + rewrite sort_values_desc_perm, sort_values_Region_perm, Hperm.
      apply perm_swap.
Qed.

Lemma plot_bar_chart_descending_witness :
  returns (plot_bar_chart Demo.three_env "SH.XPD.CHEX.GD.ZS" (Some 2019%Z) (Code "all")
                          "Health spending" "darkslategrey" false)
          Demo.world0 () Demo.three_run.2 ∧
  (∃ data rest,
      figure Demo.three_run.2
        = figure Demo.world0 ++ Barplot "SH.XPD.CHEX.GD.ZS" "Region" data "darkslategrey" :: rest ∧
      StronglySorted value_ge data ∧
      Forall (λ r, is_Some (Value r)) data) ∧
  (∃ rest,
      figure Demo.three_run.2
        = figure Demo.world0 ++
          Barplot "SH.XPD.CHEX.GD.ZS" "Region"
                  [mkYRow "2019" "Brazil" (Some (94 # 10)%Q);
                   mkYRow "2019" "Chile" (Some (51 # 10)%Q);
                   mkYRow "2019" "Peru" (Some (2 # 1)%Q)]
                  "darkslategrey" :: rest).
Proof.
  assert (Hrun : returns (plot_bar_chart Demo.three_env "SH.XPD.CHEX.GD.ZS" (Some 2019%Z)
                            (Code "all") "Health spending" "darkslategrey" false)
                         Demo.world0 () Demo.three_run.2)
    by (vm_compute; reflexivity).
  destruct (plot_bar_chart_descending Demo.three_env "SH.XPD.CHEX.GD.ZS" (Code "all")
              "Health spending" "darkslategrey" false Demo.world0 Demo.three_run.2)
    as [Hsorted Hscenario].
  split; [exact Hrun|].
  split; [exact (Hsorted _ Hrun)|].
  apply (Hscenario (Some 2019%Z) "2019" "Chile" "Brazil" "Peru"
                   (51 # 10)%Q (94 # 10)%Q (2 # 1)%Q).
  - vm_compute; reflexivity.
  - reflexivity.
  - reflexivity.
  - reflexivity.
  - exact Hrun.
Defined.

(** * Further properties *)

(** ** Runs of get_wb_data, step by step *)

Lemma get_wb_data_raises E indicator start_yr end_yr c save_csv w err :
  wb_download E (length (requests w)) indicator c start_yr end_yr = Raise err →
  get_wb_data E indicator start_yr end_yr c save_csv w
  = (Raise err,
     mkWorld (Some indicator) (requests w ++ [Download indicator c start_yr end_yr])
             (stdout w) (files w) (figure w)).
Proof.
  intros Hdl. unfold get_wb_data, mbind, M_bind, download, set_indicator_name; simpl.
  by rewrite Hdl.
Qed.

Lemma get_wb_data_quiet E indicator start_yr end_yr c w t w' :
  returns (get_wb_data E indicator start_yr end_yr c false) w t w' →
  w' = mkWorld (Some indicator) (requests w ++ [Download indicator c start_yr end_yr])
               (stdout w) (files w) (figure w).
Proof.
  unfold returns, get_wb_data, mbind, M_bind, mret, M_ret, download,
    set_indicator_name; simpl.
  destruct (wb_download _ _ _ _ _ _) as [fetched|err]; simpl; [|discriminate].
  by intros [= _ <-].
Qed.

Lemma get_wb_data_saved_file E indicator start_yr end_yr c w t w' :
  returns (get_wb_data E indicator start_yr end_yr c true) w t w' →
  files w' = files w ++ [(indicator +:+ "_" +:+ now E +:+ ".csv", YRows_to_csv indicator t)].
Proof.
  unfold returns, get_wb_data, mbind, M_bind, mret, M_ret, download,
    set_indicator_name, write_file; simpl.
  destruct (wb_download _ _ _ _ _ _) as [fetched|err]; simpl; [|discriminate].
  destruct (writable _ _); simpl; [|discriminate].
  by intros [= <- <-].
Qed.

(** ** get_wb_data: what the table holds *)

(** X1.  The table [get_wb_data] returns holds the readings of the answer
    that are not missing, each as often as the answer has it and with its
    value unchanged, and nothing else: it is a rearrangement of these
    readings, no row of it has a missing value, and it has as many rows as
    the answer has readings that are not missing. *)
Theorem get_wb_data_keeps_readings E indicator start_yr end_yr c save_csv w t w' :
  returns (get_wb_data E indicator start_yr end_yr c save_csv) w t w' →
  ∃ fetched,
    wb_download E (length (requests w)) indicator c start_yr end_yr = Ok fetched ∧
    t ≡ₚ (λ o, mkYRow (year o) (country o) (value o))
           <$> filter (λ o, is_Some (value o)) fetched ∧
    Forall (λ r, is_Some (Value r)) t ∧
    length t = length (filter (λ o, is_Some (value o)) fetched) ∧
    (∀ n y v, mkYRow y n (Some v) ∈ t ↔ mkObs n y (Some v) ∈ fetched).
Proof.
  intros (fetched & Hdl & -> & _)%get_wb_data_returns.
  exists fetched. split; [done|].
  assert (Hperm : sort_values_Region (reset_index_level0 (dropna fetched))
                  ≡ₚ (λ o, mkYRow (year o) (country o) (value o))
                       <$> filter (λ o, is_Some (value o)) fetched)
    by apply sort_values_Region_perm.
  split; [exact Hperm|]. split; [|split].
  - rewrite Hperm, Forall_fmap. apply Forall_forall.
    by intros o [Hv _]%list_elem_of_filter.
  - by rewrite Hperm, length_fmap.
  - intros n y v. rewrite Hperm, list_elem_of_fmap. split.
    + intros ([n' y' v'] & [= -> -> ->] & [_ Ho]%list_elem_of_filter). done.
    + intros Ho. exists (mkObs n y (Some v)). split; [done|].
      apply list_elem_of_filter. split; [by eexists|done].
Qed.

Lemma get_wb_data_keeps_readings_witness :
  returns (get_wb_data Demo.env "NY.GDP.PCAP.CD" (Some 2010%Z) (Some 2012%Z) (Code "all") false)
          Demo.world0 Demo.year_table (Demo.year_run false).2 ∧
  length Demo.year_table = 5 ∧
  Forall (λ r, is_Some (Value r)) Demo.year_table.
Proof.
  assert (Hrun : returns (get_wb_data Demo.env "NY.GDP.PCAP.CD" (Some 2010%Z) (Some 2012%Z)
                            (Code "all") false)
                         Demo.world0 Demo.year_table (Demo.year_run false).2)
    by (vm_compute; reflexivity).
  split; [exact Hrun|].
  destruct (get_wb_data_keeps_readings _ _ _ _ _ _ _ _ _ Hrun)
    as (fetched & Hdl & _ & Hfull & _ & _).
  split; [reflexivity | exact Hfull].
Defined.

(** ** get_wb_data: failures and effects *)

(** X2.  When the source raises, [get_wb_data] raises the same error and
    writes no file; by then the request has been made and the global
    [indicator_name] holds the new indicator. *)
Theorem get_wb_data_source_error E indicator start_yr end_yr c save_csv w err :
  wb_download E (length (requests w)) indicator c start_yr end_yr = Raise err →
  ∃ w',
    get_wb_data E indicator start_yr end_yr c save_csv w = (Raise err, w') ∧
    files w' = files w ∧
    requests w' = requests w ++ [Download indicator c start_yr end_yr] ∧
    indicator_name w' = Some indicator.
Proof.
  intros Hdl. eexists. split.
  - unfold get_wb_data, mbind, M_bind, download, set_indicator_name; simpl.
    rewrite Hdl. reflexivity.
  - done.
Qed.

Lemma get_wb_data_source_error_witness :
  wb_download Sample.down_env (length (requests Demo.world0)) "SP.POP.TOTL" (Code "all")
              (Some 2010%Z) (Some 2012%Z)
    = Raise (DataUnavailable "No indicators returned data.") ∧
  ∃ w',
    get_wb_data Sample.down_env "SP.POP.TOTL" (Some 2010%Z) (Some 2012%Z) (Code "all") true
                Demo.world0
      = (Raise (DataUnavailable "No indicators returned data."), w') ∧
    files w' = files Demo.world0 ∧
    requests w' = requests Demo.world0
                  ++ [Download "SP.POP.TOTL" (Code "all") (Some 2010%Z) (Some 2012%Z)] ∧
    indicator_name w' = Some "SP.POP.TOTL".
Proof.
  split; [reflexivity|].
  apply (get_wb_data_source_error Sample.down_env "SP.POP.TOTL" (Some 2010%Z) (Some 2012%Z)
           (Code "all") true Demo.world0).
  reflexivity.
Defined.

(** X3.  [get_wb_data] returns a table exactly when the source answers and,
    if the table is to be saved, the file system accepts the path
    indicator_timestamp.csv; when the source answers and the path is
    refused, the saving call raises the IO failure of that path and leaves
    no file. *)
Theorem get_wb_data_returns_iff E indicator start_yr end_yr c save_csv w :
  ((∃ t w', returns (get_wb_data E indicator start_yr end_yr c save_csv) w t w') ↔
   (∃ fetched,
      wb_download E (length (requests w)) indicator c start_yr end_yr = Ok fetched) ∧
   (save_csv = true → writable E (indicator +:+ "_" +:+ now E +:+ ".csv") = true)) ∧
  (∀ fetched,
      wb_download E (length (requests w)) indicator c start_yr end_yr = Ok fetched →
      save_csv = true →
      writable E (indicator +:+ "_" +:+ now E +:+ ".csv") = false →
      ∃ w', get_wb_data E indicator start_yr end_yr c save_csv w
            = (Raise (IOFailure (indicator +:+ "_" +:+ now E +:+ ".csv")), w') ∧
            files w' = files w).
Proof.
  unfold returns, get_wb_data, mbind, M_bind, mret, M_ret, download,
    set_indicator_name, write_file; simpl.
  destruct (wb_download _ _ _ _ _ _) as [fetched|err]; simpl.
  - destruct save_csv; simpl.
    + destruct (writable _ _); simpl.
      * split; [|intros; discriminate]. split; [eauto|]. intros _. eauto.
      * split; [|intros; eauto]. split; [intros (t & w' & [=])|].
        intros [_ Hw]. by specialize (Hw eq_refl).
    + split; [|intros; discriminate]. split; [|eauto].
      intros _. split; [eauto|discriminate].
  - split; [|intros; discriminate]. split.
    + intros (t & w' & [=]).
    + intros [[fetched [=]] _].
Qed.

Lemma get_wb_data_returns_iff_witness :
  wb_download Sample.readonly_env (length (requests Demo.world0)) "NY.GDP.PCAP.CD" (Code "all")
              (Some 2010%Z) (Some 2012%Z) = Ok Demo.fetched ∧
  writable Sample.readonly_env ("NY.GDP.PCAP.CD" +:+ "_" +:+ now Sample.readonly_env +:+ ".csv")
    = false ∧
  ∃ w', get_wb_data Sample.readonly_env "NY.GDP.PCAP.CD" (Some 2010%Z) (Some 2012%Z)
                    (Code "all") true Demo.world0
        = (Raise (IOFailure ("NY.GDP.PCAP.CD" +:+ "_" +:+ now Sample.readonly_env +:+ ".csv")),
           w') ∧
        files w' = files Demo.world0.
Proof.
  split; [reflexivity|]. split; [reflexivity|].
  destruct (get_wb_data_returns_iff Sample.readonly_env "NY.GDP.PCAP.CD" (Some 2010%Z)
              (Some 2012%Z) (Code "all") true Demo.world0) as [_ Hfail].
  apply (Hfail Demo.fetched); reflexivity.
Defined.

(** X4.  A call of [get_wb_data] that returns has overwritten the global
    [indicator_name] with its indicator, made one request, printed and
    drawn nothing, and written one file, indicator_timestamp.csv, if
    [save_csv] is set and none otherwise. *)
Theorem get_wb_data_effects E indicator start_yr end_yr c save_csv w t w' :
  returns (get_wb_data E indicator start_yr end_yr c save_csv) w t w' →
  indicator_name w' = Some indicator ∧
  requests w' = requests w ++ [Download indicator c start_yr end_yr] ∧
  stdout w' = stdout w ∧
  figure w' = figure w ∧
  files w' = files w ++
    (if save_csv
     then [(indicator +:+ "_" +:+ now E +:+ ".csv", YRows_to_csv indicator t)]
     else []).
Proof.
  unfold returns, get_wb_data, mbind, M_bind, mret, M_ret, download,
    set_indicator_name, write_file; simpl.
  destruct (wb_download _ _ _ _ _ _) as [fetched|err]; simpl; [|discriminate].
  destruct save_csv; simpl.
  - destruct (writable _ _); simpl; [|discriminate].
    intros [= <- <-]. done.
  - intros [= <- <-]. simpl. by rewrite app_nil_r.
Qed.

Lemma get_wb_data_effects_witness :
  returns (get_wb_data Demo.env "NY.GDP.PCAP.CD" (Some 2010%Z) (Some 2012%Z) (Code "all") true)
          Demo.world0 Demo.year_table (Demo.year_run true).2 ∧
  indicator_name (Demo.year_run true).2 = Some "NY.GDP.PCAP.CD" ∧
  stdout (Demo.year_run true).2 = [] ∧
  figure (Demo.year_run true).2 = [].
Proof.
  assert (Hrun : returns (get_wb_data Demo.env "NY.GDP.PCAP.CD" (Some 2010%Z) (Some 2012%Z)
                            (Code "all") true)
                         Demo.world0 Demo.year_table (Demo.year_run true).2)
    by (vm_compute; reflexivity).
  split; [exact Hrun|].
  destruct (get_wb_data_effects _ _ _ _ _ _ _ _ _ Hrun) as (Hname & _ & Hout & Hfig & _).
  split; [exact Hname|]. split; [exact Hout | exact Hfig].
Defined.

(** ** get_wb_data: the file and the years *)

Section sort_related.

Context {A B : Type} (P : A → B → Prop).
Context (R1 : relation A) `{!RelDecision R1} (R2 : relation B) `{!RelDecision R2}.
Hypothesis HR : ∀ x1 y1 x2 y2, P x1 y1 → P x2 y2 → (R1 x1 x2 ↔ R2 y1 y2).

Lemma list_merge_related l1 k1 l2 k2 :
  Forall2 P l1 k1 → Forall2 P l2 k2 →
  Forall2 P (list_merge R1 l1 l2) (list_merge R2 k1 k2).
Proof.
  intros H1. revert l2 k2.
  induction H1 as [|x1 y1 l1 k1 Hxy1 H1 IH1]; intros l2 k2 H2.
  { by rewrite !list_merge_nil_l. }
  induction H2 as [|x2 y2 l2 k2 Hxy2 H2 IH2].
  { rewrite !list_merge_nil_r. by constructor. }
  rewrite !list_merge_cons.
  destruct (decide (R1 x1 x2)) as [Hx|Hx], (decide (R2 y1 y2)) as [Hy|Hy].
  - constructor; [done|]. apply IH1. by constructor.
  - exfalso. apply Hy. by apply (HR x1 y1 x2 y2).
  - exfalso. apply Hx. by apply (HR x1 y1 x2 y2).
  - by constructor.
Qed.

Lemma merge_list_to_stack_related st1 st2 l k :
  Forall2 (option_Forall2 (Forall2 P)) st1 st2 → Forall2 P l k →
  Forall2 (option_Forall2 (Forall2 P))
          (merge_list_to_stack R1 st1 l) (merge_list_to_stack R2 st2 k).
Proof.
  intros Hst. revert l k.
  induction Hst as [|o1 o2 st1 st2 Ho Hst IH]; intros l k Hlk; simpl.
  - by repeat constructor.
  - destruct Ho as [l' k' Hlk'|]; simpl.
    + constructor; [constructor|]. apply IH. by apply list_merge_related.
    + constructor; [by constructor|done].
Qed.

Lemma merge_stack_related st1 st2 :
  Forall2 (option_Forall2 (Forall2 P)) st1 st2 →
  Forall2 P (merge_stack R1 st1) (merge_stack R2 st2).
Proof.
  induction 1 as [|o1 o2 st1 st2 Ho Hst IH]; simpl; [constructor|].
  destruct Ho as [l k Hlk|]; [|done]. by apply list_merge_related.
Qed.

Lemma merge_sort_related l k :
  Forall2 P l k → Forall2 P (merge_sort R1 l) (merge_sort R2 k).
Proof.
  unfold merge_sort.
  assert (Hgen : ∀ st1 st2, Forall2 (option_Forall2 (Forall2 P)) st1 st2 → Forall2 P l k →
                   Forall2 P (merge_sort_aux R1 st1 l) (merge_sort_aux R2 st2 k)).
  { intros st1 st2 Hst Hlk. revert st1 st2 Hst.
    induction Hlk as [|x y l k Hxy Hlk IH]; intros st1 st2 Hst; simpl.
    - by apply merge_stack_related.
    - apply IH. apply merge_list_to_stack_related; [done|]. by repeat constructor. }
  apply Hgen. constructor.
Qed.

End sort_related.

Lemma year_table_related fetched1 fetched2 :
  Forall2 same_reading fetched1 fetched2 →
  Forall2 same_row_but_year
          (sort_values_Region (reset_index_level0 (dropna fetched1)))
          (sort_values_Region (reset_index_level0 (dropna fetched2))).
Proof.
  intros Hsame. apply merge_sort_related.
  { intros x1 y1 x2 y2 [Hr1 _] [Hr2 _]. unfold region_le. by rewrite Hr1, Hr2. }
  unfold reset_index_level0. apply Forall2_fmap.
  unfold dropna. induction Hsame as [|o1 o2 l1 l2 [Hc Hv] _ IH]; [constructor|].
  rewrite !filter_cons.
  destruct (decide (is_Some (value o1))) as [H1|H1],
           (decide (is_Some (value o2))) as [H2|H2].
  - constructor; [done|exact IH].
  - exfalso. apply H2. by rewrite <-Hv.
  - exfalso. apply H1. by rewrite Hv.
  - exact IH.
Qed.

Lemma YRows_to_csv_related indicator t1 t2 :
  Forall2 same_row_but_year t1 t2 →
  YRows_to_csv indicator t1 = YRows_to_csv indicator t2.
Proof.
  intros Hrel. unfold YRows_to_csv. f_equal.
  induction Hrel as [|r1 r2 l1 l2 [Hr Hv] _ IH]; [done|].
  by rewrite !fmap_cons, Hr, Hv, IH.
Qed.

(** X5.  The file a saving call of [get_wb_data] writes does not depend
    on the years of the readings: two answers that agree, reading by
    reading, on country and value give files with the same name and the
    same content, whatever their year labels are. *)
Theorem get_wb_data_csv_ignores_years E1 E2 indicator start1 end1 start2 end2 c1 c2
    w1 w2 t1 t2 w1' w2' fetched1 fetched2 :
  wb_download E1 (length (requests w1)) indicator c1 start1 end1 = Ok fetched1 →
  wb_download E2 (length (requests w2)) indicator c2 start2 end2 = Ok fetched2 →
  Forall2 same_reading fetched1 fetched2 →
  now E1 = now E2 →
  returns (get_wb_data E1 indicator start1 end1 c1 true) w1 t1 w1' →
  returns (get_wb_data E2 indicator start2 end2 c2 true) w2 t2 w2' →
  ∃ file, files w1' = files w1 ++ [file] ∧ files w2' = files w2 ++ [file].
Proof.
  intros Hdl1 Hdl2 Hsame Hnow Hrun1 Hrun2.
  pose proof (get_wb_data_saved_file _ _ _ _ _ _ _ _ Hrun1) as Hf1.
  pose proof (get_wb_data_saved_file _ _ _ _ _ _ _ _ Hrun2) as Hf2.
  apply get_wb_data_returns in Hrun1 as (f1 & Hdl1' & -> & _).
  apply get_wb_data_returns in Hrun2 as (f2 & Hdl2' & -> & _).
  rewrite Hdl1 in Hdl1'. injection Hdl1' as <-.
  rewrite Hdl2 in Hdl2'. injection Hdl2' as <-.
  eexists. split; [exact Hf1|]. rewrite Hf2. rewrite <-Hnow. f_equal. f_equal. f_equal.
  symmetry. by apply YRows_to_csv_related, year_table_related.
Qed.

Lemma get_wb_data_csv_ignores_years_witness :
  Forall2 same_reading Demo.fetched Sample.shifted ∧
  ∃ file,
    files (Demo.year_run true).2 = files Demo.world0 ++ [file] ∧
    files Sample.shifted_run.2 = files Demo.world0 ++ [file].
Proof.
  assert (Hsame : Forall2 same_reading Demo.fetched Sample.shifted)
    by (repeat constructor).
  split; [exact Hsame|].
  apply (get_wb_data_csv_ignores_years Demo.env Sample.shifted_env "NY.GDP.PCAP.CD"
           (Some 2010%Z) (Some 2012%Z) (Some 1997%Z) (Some 1999%Z) (Code "all") (Code "all")
           Demo.world0 Demo.world0 Demo.year_table Sample.shifted_table
           (Demo.year_run true).2 (Sample.shifted_run).2 Demo.fetched Sample.shifted).
  - reflexivity.
  - reflexivity.
  - exact Hsame.
  - reflexivity.
  - vm_compute; reflexivity.
  - vm_compute; reflexivity.
Defined.

(** ** to_flourish: the cells *)






(** ** to_flourish: the order of the rows *)

Lemma merge_names_sublist left right :
  NoDup (fst <$> p_rows right) →
  (m_name <$> merge left right) `sublist_of` (name <$> left).
Proof.
  intros Hright. induction left as [|l left IH]; [done|].
  change (merge (l :: left) right)
    with ((filter (λ r, r.1 = name l) (p_rows right)
             ≫= λ r, [mkMerged (iso2c l) (name l) (region l) r.1 r.2])
          ++ merge left right).
  rewrite fmap_app, fmap_cons.
  pose proof (filter_key_at_most_one (p_rows right) (name l) Hright) as Hlen.
  destruct (filter _ (p_rows right)) as [|r [|r' rest]]; simpl in *.
  - by apply sublist_cons.
  - by apply sublist_skip.
  - lia.
Qed.

(** X7.  The rows of the table [to_flourish] returns come in the order of
    the metadata, not of the observations: their names, read from top to
    bottom, are the display names of the metadata rows outside Aggregates
    with some of them left out. *)
Theorem to_flourish_rows_follow_metadata E indicator start_yr end_yr c save_csv w t w' :
  returns (to_flourish E indicator start_yr end_yr c save_csv) w t w' →
  ∃ info,
    wb_get_countries E (S (length (requests w))) = Ok info ∧
    (w_name <$> w_rows t)
      `sublist_of` (name <$> filter (λ m, region m ≠ "Aggregates") info).
Proof.
  intros (fetched & info & _ & Hinfo & -> & _)%to_flourish_returns.
  exists info. split; [done|]. cbn [w_rows]. unfold insert_url_drop.
  rewrite <-list_fmap_compose.
  apply (merge_names_sublist _ (pivot_table fetched)).
  rewrite pivot_countries. apply NoDup_sorted_labels.
Qed.

Lemma to_flourish_rows_follow_metadata_witness :
  returns (to_flourish Demo.env "NY.GDP.PCAP.CD" (Some 2010%Z) (Some 2012%Z) (Code "all") false)
          Demo.world0 Demo.flourish_table (Demo.flourish_run false).2 ∧
  ∃ info,
    wb_get_countries Demo.env (S (length (requests Demo.world0))) = Ok info ∧
    (w_name <$> w_rows Demo.flourish_table)
      `sublist_of` (name <$> filter (λ m, region m ≠ "Aggregates") info).
Proof.
  assert (Hrun : returns (to_flourish Demo.env "NY.GDP.PCAP.CD" (Some 2010%Z) (Some 2012%Z)
                            (Code "all") false)
                         Demo.world0 Demo.flourish_table (Demo.flourish_run false).2)
    by (vm_compute; reflexivity).
  split; [exact Hrun|].
  exact (to_flourish_rows_follow_metadata _ _ _ _ _ _ _ _ _ Hrun).
Defined.

(** ** to_flourish: failures and effects *)

(** X8.  When the download raises, [to_flourish] raises the same error
    and has neither asked for the metadata nor printed nor written
    anything; when the download answers and the metadata query raises,
    [to_flourish] raises that error, after the progress line has been
    printed, and writes no file. *)
Theorem to_flourish_remote_errors E indicator start_yr end_yr c save_csv w :
  (∀ err,
      wb_download E (length (requests w)) indicator c start_yr end_yr = Raise err →
      ∃ w', to_flourish E indicator start_yr end_yr c save_csv w = (Raise err, w') ∧
            requests w' = requests w ++ [Download indicator c start_yr end_yr] ∧
            stdout w' = stdout w ∧
            files w' = files w) ∧
  (∀ fetched err,
      wb_download E (length (requests w)) indicator c start_yr end_yr = Ok fetched →
      wb_get_countries E (S (length (requests w))) = Raise err →
      ∃ w', to_flourish E indicator start_yr end_yr c save_csv w = (Raise err, w') ∧
            requests w' = requests w ++ [Download indicator c start_yr end_yr; GetCountries] ∧
            stdout w' = stdout w ++ ["Processed the Indicator Data"] ∧
            files w' = files w).
Proof.
  unfold to_flourish, mbind, M_bind, download, get_countries, print; simpl.
  rewrite length_app, Nat.add_1_r. split.
  - intros err ->. simpl. eexists. done.
  - intros fetched err -> ->. simpl. eexists. split; [done|].
    simpl. by rewrite <-app_assoc.
Qed.

Lemma to_flourish_remote_errors_witness :
  (∃ w', to_flourish Sample.down_env "NY.GDP.PCAP.CD" (Some 2010%Z) (Some 2012%Z) (Code "all")
                     true Demo.world0
         = (Raise (DataUnavailable "No indicators returned data."), w') ∧
         requests w' = requests Demo.world0
                       ++ [Download "NY.GDP.PCAP.CD" (Code "all") (Some 2010%Z) (Some 2012%Z)] ∧
         stdout w' = stdout Demo.world0 ∧
         files w' = files Demo.world0) ∧
  (∃ w', to_flourish Sample.no_metadata_env "NY.GDP.PCAP.CD" (Some 2010%Z) (Some 2012%Z)
                     (Code "all") true Demo.world0
         = (Raise (DataUnavailable "metadata"), w') ∧
         requests w' = requests Demo.world0
                       ++ [Download "NY.GDP.PCAP.CD" (Code "all") (Some 2010%Z) (Some 2012%Z);
                           GetCountries] ∧
         stdout w' = stdout Demo.world0 ++ ["Processed the Indicator Data"] ∧
         files w' = files Demo.world0).
Proof.
  split.
  - destruct (to_flourish_remote_errors Sample.down_env "NY.GDP.PCAP.CD" (Some 2010%Z)
                (Some 2012%Z) (Code "all") true Demo.world0) as [Hdown _].
    apply Hdown. reflexivity.
  - destruct (to_flourish_remote_errors Sample.no_metadata_env "NY.GDP.PCAP.CD" (Some 2010%Z)
                (Some 2012%Z) (Code "all") true Demo.world0) as [_ Hmeta].
    apply (Hmeta Demo.fetched); reflexivity.
Defined.

(** X9.  [to_flourish] returns a table exactly when both remote calls
    answer and, if the table is to be saved, the file system accepts the
    path flourish_data/flourish_indicator_timestamp.csv; when both answer
    and the path is refused, the saving call raises the IO failure of that
    path and leaves no file. *)
Theorem to_flourish_returns_iff E indicator start_yr end_yr c save_csv w :
  ((∃ t w', returns (to_flourish E indicator start_yr end_yr c save_csv) w t w') ↔
   (∃ fetched,
      wb_download E (length (requests w)) indicator c start_yr end_yr = Ok fetched) ∧
   (∃ info, wb_get_countries E (S (length (requests w))) = Ok info) ∧
   (save_csv = true →
    writable E ("flourish_data/flourish_" +:+ indicator +:+ "_" +:+ now E +:+ ".csv")
    = true)) ∧
  (∀ fetched info,
      wb_download E (length (requests w)) indicator c start_yr end_yr = Ok fetched →
      wb_get_countries E (S (length (requests w))) = Ok info →
      save_csv = true →
      writable E ("flourish_data/flourish_" +:+ indicator +:+ "_" +:+ now E +:+ ".csv")
      = false →
      ∃ w', to_flourish E indicator start_yr end_yr c save_csv w
            = (Raise (IOFailure ("flourish_data/flourish_" +:+ indicator +:+ "_"
                                 +:+ now E +:+ ".csv")), w') ∧
            files w' = files w).
Proof.
  unfold returns, to_flourish, mbind, M_bind, mret, M_ret, download, get_countries,
    print, write_file; simpl.
  rewrite length_app, Nat.add_1_r.
  destruct (wb_download _ _ _ _ _ _) as [fetched|err]; simpl.
  - destruct (wb_get_countries _ _) as [info|err]; simpl.
    + destruct save_csv; simpl.
      * destruct (writable _ _); simpl.
        -- split; [|intros; discriminate]. split; [eauto 6|]. intros _. eauto.
        -- split; [|intros; eauto]. split; [intros (t & w' & [=])|].
           intros (_ & _ & Hw). by specialize (Hw eq_refl).
      * split; [|intros; discriminate]. split; [|eauto].
        intros _. split; [eauto|]. split; [eauto|discriminate].
    + split; [|intros; discriminate]. split.
      * intros (t & w' & [=]).
      * intros (_ & [info [=]] & _).
  - split; [|intros; discriminate]. split.
    + intros (t & w' & [=]).
    + intros ([fetched [=]] & _).
Qed.

Lemma to_flourish_returns_iff_witness :
  wb_download Sample.readonly_env (length (requests Demo.world0)) "NY.GDP.PCAP.CD" (Code "all")
              (Some 2010%Z) (Some 2012%Z) = Ok Demo.fetched ∧
  wb_get_countries Sample.readonly_env (S (length (requests Demo.world0))) = Ok Demo.countries ∧
  ∃ w', to_flourish Sample.readonly_env "NY.GDP.PCAP.CD" (Some 2010%Z) (Some 2012%Z)
                    (Code "all") true Demo.world0
        = (Raise (IOFailure ("flourish_data/flourish_" +:+ "NY.GDP.PCAP.CD" +:+ "_"
                             +:+ now Sample.readonly_env +:+ ".csv")), w') ∧
        files w' = files Demo.world0.
Proof.
  split; [reflexivity|]. split; [reflexivity|].
  destruct (to_flourish_returns_iff Sample.readonly_env "NY.GDP.PCAP.CD" (Some 2010%Z)
              (Some 2012%Z) (Code "all") true Demo.world0) as [_ Hfail].
  apply (Hfail Demo.fetched Demo.countries); reflexivity.
Defined.

(** X10.  A call of [to_flourish] that returns has asked the source for
    the observations and then for the metadata, printed one progress line,
    left the global [indicator_name] and the figure as they were, and
    written one file, flourish_data/flourish_indicator_timestamp.csv, if
    [save_csv] is set and none otherwise. *)
Theorem to_flourish_effects E indicator start_yr end_yr c save_csv w t w' :
  returns (to_flourish E indicator start_yr end_yr c save_csv) w t w' →
  requests w' = requests w ++ [Download indicator c start_yr end_yr; GetCountries] ∧
  stdout w' = stdout w ++ ["Processed the Indicator Data"] ∧
  indicator_name w' = indicator_name w ∧
  figure w' = figure w ∧
  files w' = files w ++
    (if save_csv
     then [("flourish_data/flourish_" +:+ indicator +:+ "_" +:+ now E +:+ ".csv",
            WideFrame_to_csv t)]
     else []).
Proof.
  unfold returns, to_flourish, mbind, M_bind, mret, M_ret, download, get_countries,
    print, write_file; simpl.
  destruct (wb_download _ _ _ _ _ _) as [fetched|err]; simpl; [|discriminate].
  destruct (wb_get_countries _ _) as [info|err]; simpl; [|discriminate].
  destruct save_csv; simpl.
  - destruct (writable _ _); simpl; [|discriminate].
    intros [= <- <-]. simpl. by rewrite <-app_assoc.
  - intros [= <- <-]. simpl. by rewrite <-app_assoc, app_nil_r.
Qed.

Lemma to_flourish_effects_witness :
  returns (to_flourish Demo.env "NY.GDP.PCAP.CD" (Some 2010%Z) (Some 2012%Z) (Code "all") true)
          Demo.world0 Demo.flourish_table (Demo.flourish_run true).2 ∧
  requests (Demo.flourish_run true).2
    = [Download "NY.GDP.PCAP.CD" (Code "all") (Some 2010%Z) (Some 2012%Z); GetCountries] ∧
  stdout (Demo.flourish_run true).2 = ["Processed the Indicator Data"] ∧
  indicator_name (Demo.flourish_run true).2 = None.
Proof.
  assert (Hrun : returns (to_flourish Demo.env "NY.GDP.PCAP.CD" (Some 2010%Z) (Some 2012%Z)
                            (Code "all") true)
                         Demo.world0 Demo.flourish_table (Demo.flourish_run true).2)
    by (vm_compute; reflexivity).
  split; [exact Hrun|].
  destruct (to_flourish_effects _ _ _ _ _ _ _ _ _ Hrun) as (Hreq & Hout & Hname & _).
  split; [exact Hreq|]. split; [exact Hout | exact Hname].
Defined.

(** ** to_flourish: the file *)

Lemma WideFrame_to_csv_inj t1 t2 :
  WideFrame_to_csv t1 = WideFrame_to_csv t2 → t1 = t2.
Proof.
  destruct t1 as [ys1 rows1], t2 as [ys2 rows2]. unfold WideFrame_to_csv. simpl.
  intros [= -> Hrecords]. f_equal.
  revert rows2 Hrecords. induction rows1 as [|r1 rows1 IH]; intros [|r2 rows2]; try done.
  rewrite !fmap_cons. intros [= Hn Hr Hu Hcells Hrest]. f_equal; [|by apply IH].
  destruct r1, r2. simpl in *. subst. f_equal.
  assert (Hinj : Inj (=) (=) FNum) by (by intros ?? [=]).
  by apply (inj (fmap FNum)).
Qed.

(** X11.  The file [to_flourish] writes determines the table: two saving
    calls that write files of the same content return the same table. *)
Theorem to_flourish_csv_determines_table E1 E2 indicator1 indicator2 start1 end1 start2 end2
    c1 c2 w1 w2 t1 t2 w1' w2' path1 path2 file :
  returns (to_flourish E1 indicator1 start1 end1 c1 true) w1 t1 w1' →
  returns (to_flourish E2 indicator2 start2 end2 c2 true) w2 t2 w2' →
  files w1' = files w1 ++ [(path1, file)] →
  files w2' = files w2 ++ [(path2, file)] →
  t1 = t2.
Proof.
  intros (_ & _ & _ & _ & _ & Hf1)%to_flourish_returns
         (_ & _ & _ & _ & _ & Hf2)%to_flourish_returns.
  rewrite (Hf1 eq_refl), (Hf2 eq_refl).
  intros [_ [= _ H1]]%app_inj_tail [_ [= _ H2]]%app_inj_tail.
  apply WideFrame_to_csv_inj. by rewrite H1, H2.
Qed.

Lemma to_flourish_csv_determines_table_witness :
  ∃ path1 path2 file,
    files (Demo.flourish_run true).2 = files Demo.world0 ++ [(path1, file)] ∧
    files Sample.later_flourish_run.2 = files Demo.world0 ++ [(path2, file)] ∧
    path1 ≠ path2 ∧
    Demo.flourish_table = Sample.later_flourish_table.
Proof.
  assert (Hrun1 : returns (to_flourish Demo.env "NY.GDP.PCAP.CD" (Some 2010%Z) (Some 2012%Z)
                             (Code "all") true)
                          Demo.world0 Demo.flourish_table (Demo.flourish_run true).2)
    by (vm_compute; reflexivity).
  assert (Hrun2 : returns (to_flourish Sample.later_env "NY.GDP.PCAP.CD" (Some 2010%Z)
                             (Some 2012%Z) (Code "all") true)
                          Demo.world0 Sample.later_flourish_table Sample.later_flourish_run.2)
    by (vm_compute; reflexivity).
  eexists _, _, _. split; [reflexivity|]. split; [reflexivity|]. split; [discriminate|].
  eapply (to_flourish_csv_determines_table _ _ _ _ _ _ _ _ _ _ _ _ _ _ _ _ _ _ _ Hrun1 Hrun2);
    reflexivity.
Defined.

(** ** plot_bar_chart: what is drawn *)


(** X12.  Whatever year is asked for, the rows [plot_bar_chart] passes to
    the bar plot are the rows of the fetched table whose year is the
    plotted year, each once and no other; the one request made has that
    year argument as start and as end. *)
Theorem plot_bar_chart_rows_of_year E indicator year c title colour save w w' :
  returns (plot_bar_chart E indicator year c title colour save) w () w' →
  ∃ df w1 data rest,
    returns (get_wb_data E indicator year year c false) w df w1 ∧
    requests w' = requests w ++ [Download indicator c year year] ∧
    figure w' = figure w ++ Barplot indicator "Region" data colour :: rest ∧
    data ≡ₚ filter (λ r, Year r = plotted_year year df) df ∧
    (∀ r, r ∈ data ↔ r ∈ df ∧ Year r = plotted_year year df).
Proof.
  intros (df & w1 & rest & Hdf & Hreq & Hfig)%plot_bar_chart_returns.
  destruct (get_wb_data_returns _ _ _ _ _ _ _ _ _ Hdf) as (fetched & _ & _ & Hreq1 & Hfig1).
  eexists df, w1, _, rest. split; [exact Hdf|].
  split; [by rewrite Hreq|]. split; [by rewrite Hfig, Hfig1|].
  fold (plotted_year year df).
  assert (Hdata : sort_values_desc (sort_values_Region
                    (filter (λ r, Year r = plotted_year year df) df))
                  ≡ₚ filter (λ r, Year r = plotted_year year df) df)
    by (by rewrite sort_values_desc_perm, sort_values_Region_perm).
  split; [exact Hdata|].
  intros r. rewrite Hdata, list_elem_of_filter. tauto.
Qed.

Lemma plot_bar_chart_rows_of_year_witness :
  returns (plot_bar_chart Demo.env "NY.GDP.PCAP.CD" (Some 2010%Z) (Code "all") "GDP per head"
                          "darkslategrey" true)
          Demo.world0 () Sample.bar_2010_run.2 ∧
  ∃ df w1 data rest,
    returns (get_wb_data Demo.env "NY.GDP.PCAP.CD" (Some 2010%Z) (Some 2010%Z) (Code "all") false)
            Demo.world0 df w1 ∧
    requests Sample.bar_2010_run.2
      = requests Demo.world0
        ++ [Download "NY.GDP.PCAP.CD" (Code "all") (Some 2010%Z) (Some 2010%Z)] ∧
    figure Sample.bar_2010_run.2
      = figure Demo.world0 ++ Barplot "NY.GDP.PCAP.CD" "Region" data "darkslategrey" :: rest ∧
    data ≡ₚ filter (λ r, Year r = plotted_year (Some 2010%Z) df) df.
Proof.
  assert (Hrun : returns (plot_bar_chart Demo.env "NY.GDP.PCAP.CD" (Some 2010%Z) (Code "all")
                            "GDP per head" "darkslategrey" true)
                         Demo.world0 () Sample.bar_2010_run.2)
    by (vm_compute; reflexivity).
  split; [exact Hrun|].
  destruct (plot_bar_chart_rows_of_year _ _ _ _ _ _ _ _ _ Hrun)
    as (df & w1 & data & rest & Hdf & Hreq & Hfig & Hdata & _).
  by exists df, w1, data, rest.
Defined.



(** X14.  When the source raises, [plot_bar_chart] raises the same error
    and draws nothing, with a year given or with none: the latest year is
    looked up only in a table that the request has returned. *)
Theorem plot_bar_chart_source_error E indicator year c title colour save w err :
  wb_download E (length (requests w)) indicator c year year = Raise err →
  ∃ w', plot_bar_chart E indicator year c title colour save w = (Raise err, w') ∧
        figure w' = figure w ∧
        requests w' = requests w ++ [Download indicator c year year].
Proof.
  intros Hdl. eexists. split.
  - unfold plot_bar_chart, mbind at 1, M_bind at 1.
    rewrite (get_wb_data_raises _ _ _ _ _ _ _ _ Hdl). reflexivity.
  - done.
Qed.

Lemma plot_bar_chart_source_error_witness :
  wb_download Sample.down_env (length (requests Demo.world0)) "NY.GDP.PCAP.CD" (Code "all")
              None None = Raise (DataUnavailable "No indicators returned data.") ∧
  ∃ w', plot_bar_chart Sample.down_env "NY.GDP.PCAP.CD" None (Code "all") "GDP per head"
                       "darkslategrey" true Demo.world0
        = (Raise (DataUnavailable "No indicators returned data."), w') ∧
        figure w' = figure Demo.world0 ∧
        requests w' = requests Demo.world0
                      ++ [Download "NY.GDP.PCAP.CD" (Code "all") None None].
Proof.
  split; [reflexivity|].
  apply (plot_bar_chart_source_error Sample.down_env "NY.GDP.PCAP.CD" None (Code "all")
           "GDP per head" "darkslategrey" true Demo.world0).
  reflexivity.
Defined.

(** ** plot_line_chart *)

Lemma str_min_le_l a b : String.le (str_min a b) a.
Proof.
  unfold str_min. destruct (decide (String.le a b)) as [|Hn]; [reflexivity|].
  by destruct (total String.le a b).
Qed.

Lemma str_min_le_r a b : String.le (str_min a b) b.
Proof. unfold str_min. destruct (decide (String.le a b)); [done|reflexivity]. Qed.

Lemma foldl_str_min ys y :
  foldl str_min y ys ∈ y :: ys ∧
  ∀ x, x ∈ y :: ys → String.le (foldl str_min y ys) x.
Proof.
  revert y. induction ys as [|a ys IH]; intros y; simpl.
  - split; [left|]. by intros x ->%list_elem_of_singleton.
  - destruct (IH (str_min y a)) as [Hin Hmin]. split.
    + apply elem_of_cons in Hin as [->|Hin].
      * unfold str_min. destruct (decide _); [left | right; left].
      * by do 2 right.
    + intros x [->|[->|Hx]%elem_of_cons]%elem_of_cons.
      * etrans; [|apply str_min_le_l]. apply Hmin. left.
      * etrans; [|apply str_min_le_r]. apply Hmin. left.
      * apply Hmin. by right.
Qed.

Lemma index_min_nonempty df :
  df ≠ [] →
  ∃ ymin, index_min df = PStr ymin ∧ ymin ∈ Year <$> df ∧
          ∀ y, y ∈ Year <$> df → String.le ymin y.
Proof.
  intros Hne. unfold index_min. destruct df as [|r df]; [done|].
  rewrite fmap_cons. exists (foldl str_min (Year r) (Year <$> df)).
  split; [done|]. apply foldl_str_min.
Qed.

Lemma plot_line_chart_run E indicator start_yr end_yr c title ylim save cv :
  plot_line_chart E indicator start_yr end_yr c title ylim save cv
  = match get_wb_data E indicator start_yr end_yr c false (world cv) with
    | (Ok df, w1) =>
        (Ok (),
         mkCanvas w1
           (lines cv ++
            [Lineplot (Year <$> df) indicator df "Region";
             LineTitle (title +:+ newline +:+ " from " +:+ py_str (index_min df)
                        +:+ " to " +:+ py_str (index_max df));
             Xlabel "Year"; Ylabel title; Legend; Ylim ylim]
            ++ (if save then [LineSavefig (title +:+ "_line.png")] else [])
            ++ [LineShow]))
    | (Raise err, w1) => (Raise err, mkCanvas w1 (lines cv))
    end.
Proof.
  unfold plot_line_chart, mbind at 1, MC_bind at 1, lift.
  destruct (get_wb_data E indicator start_yr end_yr c false (world cv)) as [[df|err] w1];
    [|done].
  unfold mbind, MC_bind, mret, MC_ret, plt_line; simpl.
  destruct save; simpl; rewrite <-!app_assoc; reflexivity.
Qed.

(** X15.  A call of [plot_line_chart] that returns has fetched the table
    with [get_wb_data] for the range given, never saving it, and has drawn,
    in this order: the line plot of the whole table against its year index,
    with one hue per region; the title; the axis labels Year and the title;
    the legend; the y limits given; the saved image title_line.png if [save]
    is set; and the figure shown. *)
Theorem plot_line_chart_drawing E indicator start_yr end_yr c title ylim save cv cv' :
  plot_line_chart E indicator start_yr end_yr c title ylim save cv = (Ok (), cv') →
  ∃ df,
    returns (get_wb_data E indicator start_yr end_yr c false) (world cv) df (world cv') ∧
    files (world cv') = files (world cv) ∧
    requests (world cv') = requests (world cv) ++ [Download indicator c start_yr end_yr] ∧
    lines cv' = lines cv ++
      [Lineplot (Year <$> df) indicator df "Region";
       LineTitle (title +:+ newline +:+ " from " +:+ py_str (index_min df)
                  +:+ " to " +:+ py_str (index_max df));
       Xlabel "Year"; Ylabel title; Legend; Ylim ylim]
      ++ (if save then [LineSavefig (title +:+ "_line.png")] else [])
      ++ [LineShow].
Proof.
  rewrite plot_line_chart_run.
  destruct (get_wb_data E indicator start_yr end_yr c false (world cv)) as [[df|err] w1] eqn:Hdf;
    [|discriminate].
  intros [= <-]. exists df. simpl. split; [exact Hdf|].
  by rewrite (get_wb_data_quiet _ _ _ _ _ _ _ _ Hdf).
Qed.

Lemma plot_line_chart_drawing_witness :
  plot_line_chart Demo.env "NY.GDP.PCAP.CD" (Some 2010%Z) (Some 2012%Z) (Code "all")
                  "GDP per head" None true Sample.canvas0 = (Ok (), Sample.line_run.2) ∧
  ∃ df,
    returns (get_wb_data Demo.env "NY.GDP.PCAP.CD" (Some 2010%Z) (Some 2012%Z) (Code "all") false)
            (world Sample.canvas0) df (world Sample.line_run.2) ∧
    files (world Sample.line_run.2) = files (world Sample.canvas0).
Proof.
  assert (Hrun : plot_line_chart Demo.env "NY.GDP.PCAP.CD" (Some 2010%Z) (Some 2012%Z)
                   (Code "all") "GDP per head" None true Sample.canvas0
                 = (Ok (), Sample.line_run.2))
    by (vm_compute; reflexivity).
  split; [exact Hrun|].
  destruct (plot_line_chart_drawing _ _ _ _ _ _ _ _ _ _ Hrun) as (df & Hdf & Hfiles & _).
  by exists df.
Defined.

(** X16.  The title of the line chart names the range of the table's
    index: for a table with rows it reads title, from ymin to ymax, where
    ymin and ymax are labels of the index and every label of the index lies
    between them in the order of strings. *)
Theorem plot_line_chart_title_range E indicator start_yr end_yr c title ylim save cv cv' :
  plot_line_chart E indicator start_yr end_yr c title ylim save cv = (Ok (), cv') →
  ∃ df,
    returns (get_wb_data E indicator start_yr end_yr c false) (world cv) df (world cv') ∧
    (df ≠ [] →
     ∃ ymin ymax,
       LineTitle (title +:+ newline +:+ " from " +:+ ymin +:+ " to " +:+ ymax) ∈ lines cv' ∧
       ymin ∈ Year <$> df ∧
       ymax ∈ Year <$> df ∧
       ∀ y, y ∈ Year <$> df → String.le ymin y ∧ String.le y ymax).
Proof.
  rewrite plot_line_chart_run.
  destruct (get_wb_data E indicator start_yr end_yr c false (world cv)) as [[df|err] w1] eqn:Hdf;
    [|discriminate].
  intros [= <-]. exists df. split; [exact Hdf|]. intros Hne.
  destruct (index_min_nonempty df Hne) as (ymin & Hmin & Hminin & Hle).
  destruct (index_max_nonempty df Hne) as (ymax & Hmax & Hmaxin & Hge).
  exists ymin, ymax. rewrite Hmin, Hmax. simpl.
  split; [|split; [done|split; [done|]]].
  - apply elem_of_app. right. right. left.
  - intros y Hy. split; [by apply Hle | by apply Hge].
Qed.

Lemma plot_line_chart_title_range_witness :
  plot_line_chart Demo.env "NY.GDP.PCAP.CD" (Some 2010%Z) (Some 2012%Z) (Code "all")
                  "GDP per head" None true Sample.canvas0 = (Ok (), Sample.line_run.2) ∧
  LineTitle ("GDP per head" +:+ newline +:+ " from " +:+ "2010" +:+ " to " +:+ "2012")
    ∈ lines Sample.line_run.2 ∧
  ∃ df,
    returns (get_wb_data Demo.env "NY.GDP.PCAP.CD" (Some 2010%Z) (Some 2012%Z) (Code "all") false)
            (world Sample.canvas0) df (world Sample.line_run.2).
Proof.
  assert (Hrun : plot_line_chart Demo.env "NY.GDP.PCAP.CD" (Some 2010%Z) (Some 2012%Z)
                   (Code "all") "GDP per head" None true Sample.canvas0
                 = (Ok (), Sample.line_run.2))
    by (vm_compute; reflexivity).
  split; [exact Hrun|]. split; [right; left|].
  destruct (plot_line_chart_title_range _ _ _ _ _ _ _ _ _ _ Hrun) as (df & Hdf & _).
  by exists df.
Defined.

(** X17.  When the source raises, [plot_line_chart] raises the same error
    and draws nothing. *)
Theorem plot_line_chart_source_error E indicator start_yr end_yr c title ylim save cv err :
  wb_download E (length (requests (world cv))) indicator c start_yr end_yr = Raise err →
  ∃ cv', plot_line_chart E indicator start_yr end_yr c title ylim save cv = (Raise err, cv') ∧
         lines cv' = lines cv ∧
         files (world cv') = files (world cv).
Proof.
  intros Hdl.
  rewrite plot_line_chart_run, (get_wb_data_raises _ _ _ _ _ _ _ _ Hdl).
  eexists. split; [reflexivity|]. done.
Qed.

Lemma plot_line_chart_source_error_witness :
  wb_download Sample.down_env (length (requests (world Sample.canvas0))) "NY.GDP.PCAP.CD"
              (Code "all") (Some 2010%Z) (Some 2012%Z)
    = Raise (DataUnavailable "No indicators returned data.") ∧
  ∃ cv', plot_line_chart Sample.down_env "NY.GDP.PCAP.CD" (Some 2010%Z) (Some 2012%Z)
                         (Code "all") "GDP per head" None true Sample.canvas0
         = (Raise (DataUnavailable "No indicators returned data."), cv') ∧
         lines cv' = lines Sample.canvas0 ∧
         files (world cv') = files (world Sample.canvas0).
Proof.
  split; [reflexivity|].
  apply (plot_line_chart_source_error Sample.down_env "NY.GDP.PCAP.CD" (Some 2010%Z)
           (Some 2012%Z) (Code "all") "GDP per head" None true Sample.canvas0).
  reflexivity.
Defined.

(** ** Answers without readings *)

Lemma dropna_none df : Forall (λ o, value o = None) df → dropna df = [].
Proof.
  unfold dropna. induction 1 as [|o df Ho _ IH]; [done|].
  rewrite filter_cons_False; [done|]. rewrite Ho. by intros [? [=]].
Qed.

Lemma merge_no_rows left years : merge left (mkPivotFrame years []) = [].
Proof. unfold merge. induction left as [|l left IH]; [done|]. simpl. exact IH. Qed.

(** X18.  When the answer of the source has no reading that is not
    missing, as when it is empty, neither builder fails: [get_wb_data]
    returns the table with no row, and [to_flourish], once the metadata
    query has answered, the table with no year column and no row. *)
Theorem builders_without_readings E indicator start_yr end_yr c w fetched :
  wb_download E (length (requests w)) indicator c start_yr end_yr = Ok fetched →
  Forall (λ o, value o = None) fetched →
  (∃ w', returns (get_wb_data E indicator start_yr end_yr c false) w [] w') ∧
  (∀ info, wb_get_countries E (S (length (requests w))) = Ok info →
           ∃ w', returns (to_flourish E indicator start_yr end_yr c false) w
                         (mkWideFrame [] []) w').
Proof.
  intros Hdl Hnone. split.
  - unfold returns, get_wb_data, mbind, M_bind, mret, M_ret, download,
      set_indicator_name; simpl.
    rewrite Hdl. simpl. rewrite (dropna_none _ Hnone). eauto.
  - intros info Hinfo.
    unfold returns, to_flourish, mbind, M_bind, mret, M_ret, download, get_countries,
      print; simpl.
    rewrite Hdl. simpl. rewrite length_app, Nat.add_1_r, Hinfo. simpl.
    unfold pivot_table. rewrite (dropna_none _ Hnone). simpl.
    rewrite merge_no_rows. eauto.
Qed.

Lemma builders_without_readings_witness :
  (∃ w', returns (get_wb_data Sample.blank_env "SP.POP.TOTL" (Some 2030%Z) (Some 2030%Z)
                              (Code "all") false) Demo.world0 [] w') ∧
  (∃ w', returns (to_flourish Sample.blank_env "SP.POP.TOTL" (Some 2030%Z) (Some 2030%Z)
                              (Code "all") false) Demo.world0 (mkWideFrame [] []) w').
Proof.
  destruct (builders_without_readings Sample.blank_env "SP.POP.TOTL" (Some 2030%Z)
              (Some 2030%Z) (Code "all") Demo.world0
              [mkObs "Canada" "2030" None; mkObs "United States" "2030" None])
    as [Hyear Hwide].
  - reflexivity.
  - repeat constructor.
  - split; [exact Hyear|]. apply (Hwide Demo.countries). reflexivity.
Defined.
